(** * SignalForge: signal scanning and idea aggregation

    A shallow embedding of the scanning core of SignalForge
    ([app/scanning.py], [app/x_scanning.py], [app/bsky_scanning.py],
    [app/mastodon_scanning.py] and the orchestration, trend and scheduling
    functions of [app/main.py]) together with the properties its
    specification states about it.

    Conventions of the embedding.
    - A Python [str] is a [string] of 8-bit characters (code points 0-255).
    - A Python [int] is a [Z].
    - A [dict] whose iteration order is observable (the idea summaries, a
      [Counter]) is an association list in insertion order with unique
      keys; a [set] of strings is a [gset string].
    - An exception is its message; a computation that may raise returns
      [exc + A].
    - Points in time are microseconds since the epoch, in [Z]. *)

From Stdlib Require Import ZArith QArith Qround Qabs Lqa Ascii String List Sorting.Sorted Permutation Lia.
From stdpp Require Import base option list sorting gmap strings pretty.

Local Open Scope string_scope.
Local Open Scope list_scope.

(** ** Characters and strings *)

Module Str.

Definition code (c : ascii) : N := N_of_ascii c.

(** [str.lower()] and the simple lower-case mapping that [re.IGNORECASE]
    applies, on code points below 256: A-Z, and the Latin-1 capitals
    0xC0-0xDE except the multiplication sign 0xD7. *)
Definition lower_char (c : ascii) : ascii :=
  let n := code c in
  if (((65 <=? n) && (n <=? 90)) ||
      ((192 <=? n) && (n <=? 222) && negb (n =? 215)))%N
  then ascii_of_N (n + 32) else c.

Fixpoint lower (s : string) : string :=
  match s with
  | EmptyString => EmptyString
  | String c r => String (lower_char c) (lower r)
  end.

(** The character class [[a-z]]. *)
Definition is_az (c : ascii) : bool :=
  ((97 <=? code c) && (code c <=? 122))%N.

(** Characters removed by [str.strip()]: the code points below 256 for
    which [str.isspace()] holds. *)
Definition is_space (c : ascii) : bool :=
  let n := code c in
  (((9 <=? n) && (n <=? 13)) || ((28 <=? n) && (n <=? 32)) ||
   (n =? 133) || (n =? 160))%N.

Fixpoint lstrip (s : string) : string :=
  match s with
  | EmptyString => EmptyString
  | String c r => if is_space c then lstrip r else s
  end.

(** [s.rstrip(chars)] for the characters satisfying [p]. *)
Fixpoint rstrip_by (p : ascii -> bool) (s : string) : string :=
  match s with
  | EmptyString => EmptyString
  | String c r =>
      match rstrip_by p r with
      | EmptyString => if p c then EmptyString else String c EmptyString
      | r' => String c r'
      end
  end.

Definition rstrip (s : string) : string := rstrip_by is_space s.

Definition strip (s : string) : string := rstrip (lstrip s).

(** [s.split(sep)] for a one-character separator. *)
Fixpoint split_on (sep : ascii) (s : string) : list string :=
  match s with
  | EmptyString => [EmptyString]
  | String c r =>
      if Ascii.eqb c sep then EmptyString :: split_on sep r
      else match split_on sep r with
           | [] => [String c EmptyString]
           | w :: ws => String c w :: ws
           end
  end.

(** [sep.join(parts)]. *)
Fixpoint join (sep : string) (parts : list string) : string :=
  match parts with
  | [] => EmptyString
  | [p] => p
  | p :: ps => p +:+ sep +:+ join sep ps
  end.

(** [s[:n]]. *)
Definition take (n : nat) (s : string) : string := String.substring 0 n s.

(** [s.replace(a, b)] for single characters. *)
Fixpoint replace_char (a b : ascii) (s : string) : string :=
  match s with
  | EmptyString => EmptyString
  | String c r => String (if Ascii.eqb c a then b else c) (replace_char a b r)
  end.

(** [s.replace(a, b)] for a character [a] and a string [b]. *)
Fixpoint replace_char_by (a : ascii) (b : string) (s : string) : string :=
  match s with
  | EmptyString => EmptyString
  | String c r =>
      if Ascii.eqb c a then b +:+ replace_char_by a b r
      else String c (replace_char_by a b r)
  end.

(** [p in s] for strings. *)
Fixpoint contains (p s : string) : bool :=
  String.prefix p s ||
  match s with
  | EmptyString => false
  | String _ r => contains p r
  end.

(** [bool(s)]: a string is truthy when it is not empty. *)
Definition truthy (s : string) : bool :=
  match s with EmptyString => false | _ => true end.

(** [[x.strip() for x in s.split(",") if x.strip()]]. *)
Definition split_list (s : string) : list string :=
  List.filter truthy (List.map strip (split_on "," s)).

End Str.

(** ** Pattern classifier ([app/scanning.py])

    The patterns use literal characters, groups, alternation, the optional
    operator [?] and the escape backslash-backslash; they have no
    repetition, so the backtracking matcher below is total. *)

Module Re.

Inductive regex : Type :=
| Eps
| Chr (c : ascii)
| Cat (a b : regex)
| Alt (a b : regex)
| Opt (a : regex).

(** Characters with a special meaning outside a class. *)
Definition is_meta (c : ascii) : bool :=
  existsb (Ascii.eqb c)
    ["."; "^"; "$"; "*"; "+"; "?"; "{"; "}"; "["; "]"; "("; ")"; "|"; "\"]%char.

(** Recursive-descent parser of the pattern syntax.  [None] is
    [re.error] or a construct outside the fragment above.  An escaped
    backslash is a literal backslash; no other escape occurs in the
    pattern table. *)
Fixpoint parse_alt (fuel : nat) (s : string) : option (regex * string) :=
  match fuel with
  | O => None
  | S fuel =>
      match parse_seq fuel s with
      | Some (r, String "|" rest) =>
          match parse_alt fuel rest with
          | Some (r2, rest2) => Some (Alt r r2, rest2)
          | None => None
          end
      | other => other
      end
  end
with parse_seq (fuel : nat) (s : string) : option (regex * string) :=
  match fuel with
  | O => None
  | S fuel =>
      match s with
      | EmptyString | String ")" _ | String "|" _ => Some (Eps, s)
      | _ =>
          match parse_atom fuel s with
          | Some (a, rest) =>
              let '(a', rest') :=
                match rest with
                | String "?" rest1 => (Opt a, rest1)
                | _ => (a, rest)
                end in
              match parse_seq fuel rest' with
              | Some (Eps, rest2) => Some (a', rest2)
              | Some (tl, rest2) => Some (Cat a' tl, rest2)
              | None => None
              end
          | None => None
          end
      end
  end
with parse_atom (fuel : nat) (s : string) : option (regex * string) :=
  match fuel with
  | O => None
  | S fuel =>
      match s with
      | EmptyString => None
      | String "(" rest =>
          match parse_alt fuel rest with
          | Some (r, String ")" rest') => Some (r, rest')
          | _ => None
          end
      | String "\" (String "\" rest) => Some (Chr "\", rest)
      | String c rest => if is_meta c then None else Some (Chr c, rest)
      end
  end.

Definition parse (p : string) : option regex :=
  match parse_alt (4 * String.length p + 4) p with
  | Some (r, EmptyString) => Some r
  | _ => None
  end.

(** A compiled pattern: the expression and the [re.IGNORECASE] flag. *)
Record pattern : Type := { rx : regex; ignorecase : bool }.

Definition compile (p : string) (icase : bool) : option pattern :=
  match parse p with
  | Some r => Some {| rx := r; ignorecase := icase |}
  | None => None
  end.

Definition char_matches (icase : bool) (c d : ascii) : bool :=
  if icase then Ascii.eqb (Str.lower_char c) (Str.lower_char d)
  else Ascii.eqb c d.

(** [run icase r s]: the remainders of [s] after each way in which [r]
    matches a prefix of [s], in the order a backtracking matcher tries
    them. *)
Fixpoint run (icase : bool) (r : regex) (s : string) : list string :=
  match r with
  | Eps => [s]
  | Chr c =>
      match s with
      | String d rest => if char_matches icase c d then [rest] else []
      | EmptyString => []
      end
  | Cat a b => List.flat_map (run icase b) (run icase a s)
  | Alt a b => run icase a s ++ run icase b s
  | Opt a => run icase a s ++ [s]
  end.

Definition matches_at (icase : bool) (r : regex) (s : string) : bool :=
  match run icase r s with [] => false | _ => true end.

(** [rx.search(text)] as a truth value: a match starts at some position. *)
Fixpoint search_from (icase : bool) (r : regex) (s : string) : bool :=
  matches_at icase r s ||
  match s with
  | EmptyString => false
  | String _ rest => search_from icase r rest
  end.

Definition search (p : pattern) (text : string) : bool :=
  search_from (ignorecase p) (rx p) text.

End Re.

Definition PATTERN_GROUPS : list (string * list string) :=
  [ ("app_request",
      [ "\\bis there (an|a) app\\b";
        "\\bis there an? (tool|software|service)\\b";
        "\\bany app (for|that)\\b";
        "\\bdoes anyone know (an? )?(app|tool|software|service)\\b";
        "\\blooking for (an? )?(app|tool|software|service)\\b";
        "\\bneed (an? )?(app|tool|software|service)\\b";
        "\\bapp that (can|does|will)\\b";
        "\\balternative to\\b" ]);
    ("pain",
      [ "\\bfrustrat(ed|ing)\\b";
        "\\bthis (sucks|is awful|is terrible)\\b";
        "\\bwhy is (there|this) no\\b";
        "\\bwish there (was|were)\\b";
        "\\bhate (having|to|that)\\b";
        "\\bpain point\\b";
        "\\bproblem is\\b";
        "\\bstruggling with\\b" ]);
    ("pay",
      [ "\\bi'?d pay\\b";
        "\\bi would pay\\b";
        "\\bwilling to pay\\b";
        "\\bpay for (an? )?(app|tool|software|service)\\b";
        "\\bhappily pay\\b" ]) ].

(** [compile_patterns()]: one case-insensitive alternation per group. *)
Fixpoint compile_groups (groups : list (string * list string))
  : option (list (string * Re.pattern)) :=
  match groups with
  | [] => Some []
  | (name, patterns) :: rest =>
      match Re.compile (Str.join "|" patterns) true, compile_groups rest with
      | Some p, Some ps => Some ((name, p) :: ps)
      | _, _ => None
      end
  end.

Definition compile_patterns : option (list (string * Re.pattern)) :=
  compile_groups PATTERN_GROUPS.

Definition match_groups (text : string) (compiled : list (string * Re.pattern))
  : list string :=
  List.map fst (List.filter (fun '(_, rx) => Re.search rx text) compiled).

(** The compiled table, evaluated once. *)
Definition compiled_groups : list (string * Re.pattern) :=
  Eval vm_compute in
    match compile_patterns with Some c => c | None => [] end.

(** ** Idea key generator ([app/scanning.py]) *)

Definition STOPWORDS : list string :=
  [ "this"; "that"; "with"; "from"; "they"; "them"; "then"; "than"; "there";
    "here"; "have"; "has"; "had"; "your"; "yours"; "what"; "which"; "when";
    "where"; "would"; "could"; "should"; "their"; "about"; "into"; "just";
    "like"; "really"; "very"; "much"; "some"; "more"; "most"; "also"; "only";
    "does"; "doing"; "done"; "need"; "want"; "looking"; "app"; "apps";
    "tool"; "tools"; "software"; "service"; "services"; "help"; "anyone";
    "know"; "find"; "use"; "using"; "used"; "make"; "making"; "made" ].

Definition is_stopword (w : string) : bool := existsb (String.eqb w) STOPWORDS.

(** The pieces of [s] between characters outside [[a-z]]. *)
Fixpoint az_runs (s : string) : list string :=
  match s with
  | EmptyString => [EmptyString]
  | String c r =>
      if Str.is_az c then
        match az_runs r with
        | [] => [String c EmptyString]
        | w :: ws => String c w :: ws
        end
      else EmptyString :: az_runs r
  end.

(** [re.findall(r"[a-z]{4,}", s)]: the quantifier is greedy, so the matches
    are the maximal runs of [[a-z]] that have at least four characters. *)
Definition findall_az4 (s : string) : list string :=
  List.filter (fun w => (4 <=? String.length w)%nat) (az_runs s).

(** [collections.Counter(words)]: a dict in insertion order. *)
Fixpoint counter_add (w : string) (c : list (string * nat)) : list (string * nat) :=
  match c with
  | [] => [(w, 1)]
  | (k, n) :: r =>
      if String.eqb k w then (k, S n) :: r else (k, n) :: counter_add w r
  end.

Definition Counter (words : list string) : list (string * nat) :=
  fold_left (fun c w => counter_add w c) words [].

(** [sorted(items, key=itemgetter(1), reverse=True)]: Python's sort is
    stable, also with [reverse=True]; elements with equal counts keep their
    order.  The element being inserted precedes, in the input, all elements
    already placed. *)
Fixpoint insert_desc (x : string * nat) (l : list (string * nat)) : list (string * nat) :=
  match l with
  | [] => [x]
  | y :: r => if (snd x <? snd y)%nat then y :: insert_desc x r else x :: y :: r
  end.

Fixpoint sort_desc (l : list (string * nat)) : list (string * nat) :=
  match l with
  | [] => []
  | x :: r => insert_desc x (sort_desc r)
  end.

(** [Counter.most_common(n)], that is [heapq.nlargest(n, items, key=count)],
    documented as [sorted(items, key=count, reverse=True)[:n]]. *)
Definition most_common (n : nat) (c : list (string * nat)) : list (string * nat) :=
  take n (sort_desc c).

Definition idea_words (text : string) : list string :=
  List.filter (fun w => negb (is_stopword w)) (findall_az4 (Str.lower text)).

Definition idea_key (text : string) : string :=
  let words := idea_words text in
  match words with
  | [] => "uncategorized"
  | _ => Str.join " " (List.map fst (most_common 6 (Counter words)))
  end.

(** ** Data model *)

Definition exc : Type := string.
Definition time : Type := Z.

Definition DAY : Z := 86400 * 1000000.
Definition HOUR : Z := 3600 * 1000000.

(** An idea-summary bucket: the dict built by [_new_summary_bucket] and by
    the adapters. *)
Record Bucket : Type := {
  mentions : Z;
  pay_mentions : Z;
  sources : gset string;
  subreddits : gset string;
  sample_title : string;
  sample_url : string;
}.

Definition _new_summary_bucket : Bucket :=
  {| mentions := 0; pay_mentions := 0; sources := ∅; subreddits := ∅;
     sample_title := ""; sample_url := "" |}.

(** Insertion-ordered dictionaries with string keys. *)
Module Dict.

Fixpoint get {V : Type} (k : string) (d : list (string * V)) : option V :=
  match d with
  | [] => None
  | (k', v) :: r => if String.eqb k' k then Some v else get k r
  end.

(** [d[k] = v]: an existing key keeps its position, a new key goes last. *)
Fixpoint set {V : Type} (k : string) (v : V) (d : list (string * V)) : list (string * V) :=
  match d with
  | [] => [(k, v)]
  | (k', v') :: r =>
      if String.eqb k' k then (k', v) :: r else (k', v') :: set k v r
  end.

Definition keys {V : Type} (d : list (string * V)) : list string := List.map fst d.

End Dict.

Definition Summary : Type := list (string * Bucket).

(** The creation time stored in a row: the isoformat text of a point in time
    computed by the adapter, or the provider's own text. *)
Inductive Created : Type :=
| CreatedAt (t : time)
| CreatedText (s : string).

(** A matched item, the dict appended to [rows]. *)
Record Row : Type := {
  row_source : string;
  row_subreddit : string;
  row_type : string;
  row_id : string;
  row_created_utc : Created;
  row_score : Z;
  row_title : string;
  row_url : string;
  row_permalink : string;
  row_match_groups : string;
  row_willing_to_pay : string;
  row_idea_key : string;
  row_snippet : string;
}.

Record RateInfo : Type := {
  rate_limit : option string;
  rate_remaining : option string;
  rate_reset : option string;
}.

(** [meta = {"queries": [{"query": q, "rate_limit": info}, ...]}], with the
    instance URL for Mastodon. *)
Record Meta : Type := {
  meta_queries : list (string * RateInfo);
  meta_instance : option string;
}.

Record Stats : Type := { fetched_total : Z; matched : Z }.

Record RedditStats : Type := {
  rs_fetched_total : Z;
  rs_fetched_submissions : Z;
  rs_fetched_comments : Z;
  rs_matched : Z;
}.

(** *** Provider payloads *)

Record Comment : Type := {
  c_id : string;
  c_created_utc : time;
  c_score : Z;
  c_body : string;
  c_permalink : string;
}.

(** A comment forest as PRAW holds it: comments with replies, and
    "load more" stubs. *)
#[warnings="-register-all"]
Inductive CommentNode : Type :=
| NodeComment (c : Comment) (replies : list CommentNode)
| NodeMore (count : Z).

Record Submission : Type := {
  s_id : string;
  s_created_utc : time;
  s_score : Z;
  s_title : string;
  s_selftext : string;
  s_url : string;
  s_permalink : string;
  s_comments : list CommentNode;
}.

(** The PRAW client: the listing generator of a subreddit (which may raise
    while it is consumed), [CommentForest.replace_more(limit=0)],
    [CommentForest.list()] and [reddit.auth.limits]. *)
Record Reddit : Type := {
  subreddit_new : string -> Z -> exc + list Submission;
  replace_more : list CommentNode -> exc + list CommentNode;
  comments_list : list CommentNode -> list Comment;
  auth_limits : exc + list (string * Z);
}.

Record Tweet : Type := {
  tw_id : string;
  tw_text : string;
  tw_created_at : string;
  tw_like_count : Z;
  tw_retweet_count : Z;
}.

(** A response of the X recent-search endpoint.  Absent JSON members are
    the empty string, [None] or the empty list. *)
Record XResponse : Type := {
  xr_status_code : Z;
  xr_text : string;
  xr_title : string;
  xr_detail : string;
  xr_type : string;
  xr_rate : RateInfo;
  xr_data : list Tweet;
  xr_next_token : option string;
}.

Record BskyPost : Type := {
  bp_uri : string;
  bp_cid : string;
  bp_handle : string;
  bp_record_text : string;
  bp_text : string;
  bp_record_createdAt : string;
  bp_indexedAt : string;
  bp_likeCount : Z;
  bp_repostCount : Z;
  bp_replyCount : Z;
}.

Record BskyResponse : Type := {
  br_status_code : Z;
  br_text : string;
  br_rate : RateInfo;
  br_posts : list BskyPost;
}.

Record Status : Type := {
  st_id : string;
  st_created_at : string;
  st_content : string;
  st_url : string;
  st_uri : string;
  st_favourites_count : Z;
  st_reblogs_count : Z;
  st_replies_count : Z;
}.

Record MastodonResponse : Type := {
  mr_status_code : Z;
  mr_text : string;
  mr_rate : RateInfo;
  mr_statuses : list Status;
}.

(** *** Persistent state ([app/db.py]) *)

Record Config : Type := {
  cfg_org_id : Z;
  cfg_subreddits : string;
  cfg_since_days : Z;
  cfg_post_limit : Z;
  cfg_include_comments : Z;
  cfg_comment_limit : Z;
  cfg_require_app_request : Z;
  cfg_x_enabled : Z;
  cfg_x_queries : string;
  cfg_x_since_days : Z;
  cfg_x_post_limit : Z;
  cfg_x_language : string;
  cfg_x_include_retweets : Z;
  cfg_bsky_enabled : Z;
  cfg_bsky_queries : string;
  cfg_bsky_post_limit : Z;
  cfg_bsky_base_url : string;
  cfg_mastodon_enabled : Z;
  cfg_mastodon_instance : string;
  cfg_mastodon_queries : string;
  cfg_mastodon_post_limit : Z;
  cfg_mastodon_since_days : Z;
  cfg_updated_utc : time;
}.

(** A row of [schedules].  [last_run_utc] is NULL or the isoformat text of
    the point in time written by [run_due_scans]. *)
Record Schedule : Type := {
  sch_org_id : Z;
  sch_interval_hours : Z;
  sch_last_run_utc : option time;
  sch_updated_utc : time;
}.

(** One persisted scan: the row of [scans] together with the rows of
    [scan_results] and [idea_summaries] written in the same transaction.
    The NULL of an empty warning list or an empty metadata dict is the
    empty list or [None]. *)
Record Scan : Type := {
  scan_id : Z;
  scan_org_id : Z;
  scan_created_utc : time;
  scan_reddit_rate_limit : list (string * Z);
  scan_x_rate_limit : option Meta;
  scan_reddit_fetched : Z;
  scan_reddit_matched : Z;
  scan_x_fetched : Z;
  scan_x_matched : Z;
  scan_warnings : list string;
  scan_bsky_rate_limit : option Meta;
  scan_bsky_fetched : Z;
  scan_bsky_matched : Z;
  scan_mastodon_rate_limit : option Meta;
  scan_mastodon_fetched : Z;
  scan_mastodon_matched : Z;
  scan_results : list Row;
  scan_idea_summaries : Summary;
}.

Record DB : Type := {
  scan_configs : list Config;
  schedules : list Schedule;
  scans : list Scan;
}.

(** *** The world a scan runs in *)

(** The log is not state of the program: it records each invocation of the
    orchestrator, so that the scheduler's decisions can be stated. *)
Inductive Event : Type :=
| ScanStarted (org_id : Z).

(** Environment variables, the clock, the providers and library functions,
    the database and a log of orchestrator invocations.

    [clock] gives the successive readings of [datetime.now(timezone.utc)];
    [reads] counts the readings taken.  [x_search] gives the successive
    responses of the X endpoint to the requests of one query. *)
Record World : Type := {
  getenv : string -> option string;
  clock : nat -> time;
  reads : nat;
  praw_client : Reddit;
  x_search : string -> Z -> time -> list (exc + XResponse);
  bsky_search : string -> string -> Z -> exc + BskyResponse;
  mastodon_search : string -> string -> Z -> option string -> exc + MastodonResponse;
  html_unescape : string -> string;
  fromisoformat : string -> option time;
  db : DB;
  log : list Event;
}.

(** ** Effects: a state and exception monad over the world *)

Definition M (A : Type) : Type := World -> (exc + A) * World.

Definition ret {A : Type} (a : A) : M A := fun w => (inr a, w).

Definition raise {A : Type} (e : exc) : M A := fun w => (inl e, w).

Definition bind {A B : Type} (m : M A) (k : A -> M B) : M B :=
  fun w =>
    match m w with
    | (inl e, w') => (inl e, w')
    | (inr a, w') => k a w'
    end.

(** [try: m  except Exception as e: h e]. *)
Definition try_except {A : Type} (m : M A) (h : exc -> M A) : M A :=
  fun w =>
    match m w with
    | (inl e, w') => h e w'
    | (inr a, w') => (inr a, w')
    end.

Definition lift {A : Type} (r : exc + A) : M A := fun w => (r, w).

Definition ask {A : Type} (f : World -> A) : M A := fun w => (inr (f w), w).

Notation "'let*' x ':=' m 'in' k" := (bind m (fun x => k))
  (at level 10, x name, m at level 100, k at level 200).
Notation "'let*' ' p ':=' m 'in' k" := (bind m (fun x => match x with p => k end))
  (at level 10, p pattern, m at level 100, k at level 200).

Definition with_reads (n : nat) (w : World) : World :=
  {| getenv := getenv w; clock := clock w; reads := n;
     praw_client := praw_client w; x_search := x_search w;
     bsky_search := bsky_search w; mastodon_search := mastodon_search w;
     html_unescape := html_unescape w; fromisoformat := fromisoformat w;
     db := db w; log := log w |}.

Definition with_db (d : DB) (w : World) : World :=
  {| getenv := getenv w; clock := clock w; reads := reads w;
     praw_client := praw_client w; x_search := x_search w;
     bsky_search := bsky_search w; mastodon_search := mastodon_search w;
     html_unescape := html_unescape w; fromisoformat := fromisoformat w;
     db := d; log := log w |}.

Definition with_log (l : list Event) (w : World) : World :=
  {| getenv := getenv w; clock := clock w; reads := reads w;
     praw_client := praw_client w; x_search := x_search w;
     bsky_search := bsky_search w; mastodon_search := mastodon_search w;
     html_unescape := html_unescape w; fromisoformat := fromisoformat w;
     db := db w; log := l |}.

(** [datetime.now(timezone.utc)]: the next reading of the clock. *)
Definition now : M time :=
  fun w => (inr (clock w (reads w)), with_reads (S (reads w)) w).

Definition modify_db (f : DB -> DB) : M unit :=
  fun w => (inr tt, with_db (f (db w)) w).

Definition emit (e : Event) : M unit :=
  fun w => (inr tt, with_log (log w ++ [e]) w).

(** [for x in xs: acc = body x acc], where the body may raise. *)
Fixpoint for_each {A S : Type} (xs : list A) (body : A -> S -> M S) (acc : S) : M S :=
  match xs with
  | [] => ret acc
  | x :: rest => let* acc' := body x acc in for_each rest body acc'
  end.

(** The same loop for bodies without effects other than exceptions. *)
Fixpoint fold_exc {A S : Type} (xs : list A) (body : A -> S -> exc + S) (acc : S) : exc + S :=
  match xs with
  | [] => inr acc
  | x :: rest =>
      match body x acc with
      | inl e => inl e
      | inr acc' => fold_exc rest body acc'
      end
  end.

(** ** Helpers shared by the adapters *)

Definition in_groups (name : string) (groups : list string) : bool :=
  existsb (String.eqb name) groups.

Definition yes_no (b : bool) : string := if b then "yes" else "no".

(** [text[:220].replace("\n", " ").strip()]. *)
Definition snippet_of (text : string) : string :=
  Str.strip (Str.replace_char "010"%char " "%char (Str.take 220 text)).

Definition nonempty {A : Type} (l : list A) : bool :=
  match l with [] => false | _ => true end.

Definition len {A : Type} (l : list A) : Z := Z.of_nat (length l).

(** [l[:n]] for a list and any integer [n]. *)
Definition slice_to {A : Type} (n : Z) (l : list A) : list A :=
  if (0 <=? n)%Z then take (Z.to_nat n) l
  else take (Z.to_nat (len l + n)) l.

(** The bucket update every adapter performs for a matched item: fetch or
    create the bucket of [key], count the mention, record source and
    bucket label, and keep the first sample. *)
Definition summary_add (summary : Summary) (key : string) (pay : bool)
    (source label title url : string) : Summary :=
  let bucket := default _new_summary_bucket (Dict.get key summary) in
  Dict.set key
    {| mentions := mentions bucket + 1;
       pay_mentions := if pay then pay_mentions bucket + 1 else pay_mentions bucket;
       sources := sources bucket ∪ {[ source ]};
       subreddits := subreddits bucket ∪ {[ label ]};
       sample_title :=
         if Str.truthy (sample_title bucket) then sample_title bucket else title;
       sample_url :=
         if Str.truthy (sample_title bucket) then sample_url bucket else url |}
    summary.

Definition compiled_or_raise : exc + list (string * Re.pattern) :=
  match compile_patterns with
  | Some c => inr c
  | None => inl "re.error"
  end.

(** ** Reddit adapter ([app/scanning.py]) *)

Definition env_set (w : World) (name : string) : bool :=
  Str.truthy (default "" (getenv w name)).

Definition load_reddit : M Reddit :=
  fun w =>
    let missing :=
      List.filter (fun name => negb (env_set w name))
        ["REDDIT_CLIENT_ID"; "REDDIT_CLIENT_SECRET"; "REDDIT_USER_AGENT"] in
    match missing with
    | [] => (inr (praw_client w), w)
    | _ => (inl ("Missing environment variables: " +:+ Str.join ", " missing), w)
    end.

(** [iter_comments(submission, limit)]: the stubs are handled by
    [replace_more(limit=0)], the forest is flattened, and at most [limit]
    comments are produced (all of them when [limit] is 0). *)
Definition iter_comments (reddit : Reddit) (submission : Submission) (limit : Z)
  : exc + list Comment :=
  match replace_more reddit (s_comments submission) with
  | inl e => inl e
  | inr forest =>
      let all := comments_list reddit forest in
      inr (if (limit =? 0)%Z then all else take (Z.to_nat limit) all)
  end.

Record RedditAcc : Type := {
  ra_rows : list Row;
  ra_summary : Summary;
  ra_stats : RedditStats;
}.

Definition count_submission (st : RedditStats) : RedditStats :=
  {| rs_fetched_total := rs_fetched_total st + 1;
     rs_fetched_submissions := rs_fetched_submissions st + 1;
     rs_fetched_comments := rs_fetched_comments st;
     rs_matched := rs_matched st |}.

Definition count_comment (st : RedditStats) : RedditStats :=
  {| rs_fetched_total := rs_fetched_total st + 1;
     rs_fetched_submissions := rs_fetched_submissions st;
     rs_fetched_comments := rs_fetched_comments st + 1;
     rs_matched := rs_matched st |}.

Definition count_matched (st : RedditStats) : RedditStats :=
  {| rs_fetched_total := rs_fetched_total st;
     rs_fetched_submissions := rs_fetched_submissions st;
     rs_fetched_comments := rs_fetched_comments st;
     rs_matched := rs_matched st + 1 |}.

Definition REDDIT_BASE : string := "https://www.reddit.com".

(** The body of the loop over the comments of one submission. *)
Definition scan_comment (compiled : list (string * Re.pattern)) (cutoff : time)
    (name : string) (require_app_request : bool) (submission : Submission)
    (comment : Comment) (acc : RedditAcc) : RedditAcc :=
  let created_c := c_created_utc comment in
  if (created_c <? cutoff)%Z then acc
  else
    let stats := count_comment (ra_stats acc) in
    let text_c := c_body comment in
    let groups_c := match_groups text_c compiled in
    if require_app_request && negb (in_groups "app_request" groups_c)
    then {| ra_rows := ra_rows acc; ra_summary := ra_summary acc; ra_stats := stats |}
    else if nonempty groups_c then
      let key := idea_key text_c in
      let pay := in_groups "pay" groups_c in
      let permalink := REDDIT_BASE +:+ c_permalink comment in
      {| ra_rows := ra_rows acc ++
           [ {| row_source := "Reddit";
                row_subreddit := name;
                row_type := "comment";
                row_id := c_id comment;
                row_created_utc := CreatedAt created_c;
                row_score := c_score comment;
                row_title := s_title submission;
                row_url := s_url submission;
                row_permalink := permalink;
                row_match_groups := Str.join ";" groups_c;
                row_willing_to_pay := yes_no pay;
                row_idea_key := key;
                row_snippet := snippet_of text_c |} ];
         ra_summary :=
           summary_add (ra_summary acc) key pay "Reddit" name
             (s_title submission) permalink;
         ra_stats := count_matched stats |}
    else {| ra_rows := ra_rows acc; ra_summary := ra_summary acc; ra_stats := stats |}.

(** The body of the loop over the submissions of one subreddit. *)
Definition scan_submission (reddit : Reddit) (compiled : list (string * Re.pattern))
    (cutoff : time) (include_comments : bool) (comment_limit : Z)
    (require_app_request : bool) (name : string)
    (submission : Submission) (acc : RedditAcc) : exc + RedditAcc :=
  let created := s_created_utc submission in
  if (created <? cutoff)%Z then inr acc
  else
    let stats := count_submission (ra_stats acc) in
    let text :=
      Str.join " " (List.filter Str.truthy [s_title submission; s_selftext submission]) in
    let groups := match_groups text compiled in
    let groups :=
      if require_app_request && negb (in_groups "app_request" groups) then [] else groups in
    let acc :=
      if nonempty groups then
        let key := idea_key text in
        let pay := in_groups "pay" groups in
        let permalink := REDDIT_BASE +:+ s_permalink submission in
        {| ra_rows := ra_rows acc ++
             [ {| row_source := "Reddit";
                  row_subreddit := name;
                  row_type := "submission";
                  row_id := s_id submission;
                  row_created_utc := CreatedAt created;
                  row_score := s_score submission;
                  row_title := s_title submission;
                  row_url := s_url submission;
                  row_permalink := permalink;
                  row_match_groups := Str.join ";" groups;
                  row_willing_to_pay := yes_no pay;
                  row_idea_key := key;
                  row_snippet := snippet_of (s_selftext submission) |} ];
           ra_summary :=
             summary_add (ra_summary acc) key pay "Reddit" name
               (s_title submission) permalink;
           ra_stats := count_matched stats |}
      else {| ra_rows := ra_rows acc; ra_summary := ra_summary acc; ra_stats := stats |} in
    if include_comments then
      match iter_comments reddit submission comment_limit with
      | inl e => inl e
      | inr comments =>
          inr (fold_left
                 (fun acc comment =>
                    scan_comment compiled cutoff name require_app_request submission comment acc)
                 comments acc)
      end
    else inr acc.

Definition scan_subreddit (reddit : Reddit) (compiled : list (string * Re.pattern))
    (cutoff : time) (post_limit : Z) (include_comments : bool) (comment_limit : Z)
    (require_app_request : bool) (name : string) (acc : RedditAcc) : exc + RedditAcc :=
  match subreddit_new reddit name post_limit with
  | inl e => inl e
  | inr listing =>
      fold_exc listing
        (scan_submission reddit compiled cutoff include_comments comment_limit
           require_app_request name)
        acc
  end.

Definition scan_subreddits (reddit : Reddit) (subreddits : list string)
    (post_limit since_days : Z) (include_comments : bool) (comment_limit : Z)
    (require_app_request : bool) : M (list Row * Summary * RedditStats) :=
  let* compiled := lift compiled_or_raise in
  let* t := now in
  let cutoff := (t - since_days * DAY)%Z in
  let* acc :=
    lift (fold_exc subreddits
            (scan_subreddit reddit compiled cutoff post_limit include_comments
               comment_limit require_app_request)
            {| ra_rows := []; ra_summary := [];
               ra_stats := {| rs_fetched_total := 0; rs_fetched_submissions := 0;
                              rs_fetched_comments := 0; rs_matched := 0 |} |}) in
  ret (ra_rows acc, ra_summary acc, ra_stats acc).

(** ** X adapter ([app/x_scanning.py]) *)

Definition load_x_token : M string :=
  fun w =>
    let token := default "" (getenv w "X_BEARER_TOKEN") in
    if Str.truthy token then (inr token, w)
    else (inl "Missing environment variable: X_BEARER_TOKEN", w).

Definition build_query (raw_query language : string) (include_retweets : bool) : string :=
  let parts :=
    [Str.strip raw_query]
    ++ (if Str.truthy language then ["lang:" +:+ language] else [])
    ++ (if include_retweets then [] else ["-is:retweet"]) in
  Str.join " " (List.filter Str.truthy parts).

(** [a or b] on strings. *)
Definition str_or (a b : string) : string := if Str.truthy a then a else b.

(** The exception raised for a response whose status is not 200. *)
Definition x_error (r : XResponse) : exc :=
  let error_text :=
    Str.lower (xr_title r +:+ " " +:+ xr_detail r +:+ " " +:+ xr_type r) in
  if Str.contains "creditsdepleted" error_text || Str.contains "credits" error_text
  then "X_CREDITS_DEPLETED: " +:+ str_or (xr_detail r) (str_or (xr_title r) (xr_text r))
  else if (xr_status_code r =? 401)%Z then "X_AUTH_ERROR: Unauthorized"
  else "X API error " +:+ pretty (xr_status_code r) +:+ ": " +:+ xr_text r.

(** The pagination loop of [fetch_recent_tweets], over the responses the
    endpoint gives to the successive requests.  A request for which no
    response is recorded raises, as a request that times out does. *)
Fixpoint fetch_pages (limit : Z) (collected : list Tweet)
    (responses : list (exc + XResponse)) : exc + (list Tweet * RateInfo) :=
  match responses with
  | [] => inl "requests.exceptions.Timeout"
  | inl e :: _ => inl e
  | inr response :: more =>
      if negb (xr_status_code response =? 200)%Z then inl (x_error response)
      else
        let collected := collected ++ xr_data response in
        if negb (Str.truthy (default "" (xr_next_token response)))
           || (limit <=? len collected)%Z
        then inr (slice_to limit collected, xr_rate response)
        else fetch_pages limit collected more
  end.

Definition fetch_recent_tweets (token query : string) (limit since_days : Z)
  : M (list Tweet * RateInfo) :=
  let max_days := Z.min (Z.max since_days 1) 7 in
  let* t := now in
  let start_time := (t - max_days * DAY)%Z in
  let* responses := ask (fun w => x_search w query (Z.min limit 100) start_time) in
  lift (fetch_pages limit [] responses).

(** The state of the adapter loops of X, Bluesky and Mastodon. *)
Record Acc : Type := {
  acc_rows : list Row;
  acc_summary : Summary;
  acc_meta : list (string * RateInfo);
  acc_fetched : Z;
}.

Definition acc_empty : Acc :=
  {| acc_rows := []; acc_summary := []; acc_meta := []; acc_fetched := 0 |}.

(** [rows.append(row)] followed by the bucket update with the row's title
    and permalink as sample. *)
Definition acc_add (acc : Acc) (row : Row) (pay : bool) : Acc :=
  {| acc_rows := acc_rows acc ++ [row];
     acc_summary :=
       summary_add (acc_summary acc) (row_idea_key row) pay (row_source row)
         (row_subreddit row) (row_title row) (row_permalink row);
     acc_meta := acc_meta acc;
     acc_fetched := acc_fetched acc |}.

(** [fetched_total += len(items)] and the metadata entry of a query. *)
Definition acc_fetch (acc : Acc) (raw_query : string) (n : Z) (rate : RateInfo) : Acc :=
  {| acc_rows := acc_rows acc;
     acc_summary := acc_summary acc;
     acc_meta := acc_meta acc ++ [(raw_query, rate)];
     acc_fetched := acc_fetched acc + n |}.

Definition acc_stats (acc : Acc) : Stats :=
  {| fetched_total := acc_fetched acc; matched := len (acc_rows acc) |}.

Definition scan_tweet (compiled : list (string * Re.pattern)) (raw_query : string)
    (tweet : Tweet) (acc : Acc) : M Acc :=
  let text := tw_text tweet in
  let groups := match_groups text compiled in
  if negb (nonempty groups) then ret acc
  else
    let* created_at :=
      if Str.truthy (tw_created_at tweet) then ret (CreatedText (tw_created_at tweet))
      else (let* t := now in ret (CreatedAt t)) in
    let score := (tw_like_count tweet + tw_retweet_count tweet)%Z in
    let key := idea_key text in
    let pay := in_groups "pay" groups in
    let row :=
      {| row_source := "X";
         row_subreddit := "query:" +:+ raw_query;
         row_type := "tweet";
         row_id := tw_id tweet;
         row_created_utc := created_at;
         row_score := score;
         row_title :=
           if (80 <? String.length text)%nat then Str.take 80 text +:+ "..." else text;
         row_url := "https://x.com/i/web/status/" +:+ tw_id tweet;
         row_permalink := "https://x.com/i/web/status/" +:+ tw_id tweet;
         row_match_groups := Str.join ";" groups;
         row_willing_to_pay := yes_no pay;
         row_idea_key := key;
         row_snippet := snippet_of text |} in
    ret (acc_add acc row pay).

Definition scan_x_query (compiled : list (string * Re.pattern)) (token : string)
    (limit_per_query since_days : Z) (language : string) (include_retweets : bool)
    (raw_query : string) (acc : Acc) : M Acc :=
  let query := build_query raw_query language include_retweets in
  let* '(tweets, rate_info) := fetch_recent_tweets token query limit_per_query since_days in
  let acc := acc_fetch acc raw_query (len tweets) rate_info in
  for_each tweets (scan_tweet compiled raw_query) acc.

Definition scan_x_queries (queries : list string) (limit_per_query since_days : Z)
    (language : string) (include_retweets : bool)
  : M (list Row * Summary * Meta * Stats) :=
  let* token := load_x_token in
  let* compiled := lift compiled_or_raise in
  let* acc :=
    for_each queries
      (scan_x_query compiled token limit_per_query since_days language include_retweets)
      acc_empty in
  ret (acc_rows acc, acc_summary acc,
       {| meta_queries := acc_meta acc; meta_instance := None |}, acc_stats acc).

(** ** Bluesky adapter ([app/bsky_scanning.py]) *)

Definition DEFAULT_BSKY_BASE_URL : string := "https://public.api.bsky.app".

Definition fetch_search_posts (base_url query : string) (limit : Z)
  : M (list BskyPost * RateInfo) :=
  let base := Str.rstrip_by (Ascii.eqb "/") base_url in
  let* result := ask (fun w => bsky_search w base query (Z.min limit 100)) in
  match result with
  | inl e => raise e
  | inr response =>
      let code := br_status_code response in
      if negb (code =? 200)%Z then
        if (code =? 401)%Z then raise "BSKY_AUTH_ERROR: Unauthorized"
        else if (code =? 403)%Z
        then raise "BSKY_FORBIDDEN: Access blocked (check VPN or base URL)"
        else if (code =? 429)%Z then raise "BSKY_RATE_LIMIT: Too Many Requests"
        else raise ("BSKY_API_ERROR: " +:+ pretty code +:+ " " +:+ br_text response)
      else ret (br_posts response, br_rate response)
  end.

Definition build_post_url (post : BskyPost) : string :=
  let uri := bp_uri post in
  let handle := bp_handle post in
  if Str.truthy uri && Str.truthy handle && Str.contains "/app.bsky.feed.post/" uri
  then
    let rkey := List.last (Str.split_on "/" uri) "" in
    "https://bsky.app/profile/" +:+ handle +:+ "/post/" +:+ rkey
  else uri.

Definition scan_bsky_post (compiled : list (string * Re.pattern)) (raw_query : string)
    (post : BskyPost) (acc : Acc) : Acc :=
  let text := str_or (bp_record_text post) (bp_text post) in
  if negb (Str.truthy text) then acc
  else
    let groups := match_groups text compiled in
    if negb (nonempty groups) then acc
    else
      let created_at := str_or (bp_record_createdAt post) (bp_indexedAt post) in
      let url := build_post_url post in
      let key := idea_key text in
      let pay := in_groups "pay" groups in
      let score := (0 + bp_likeCount post + bp_repostCount post + bp_replyCount post)%Z in
      let row :=
        {| row_source := "Bluesky";
           row_subreddit := "bsky:" +:+ raw_query;
           row_type := "post";
           row_id := str_or (bp_cid post) (bp_uri post);
           row_created_utc := CreatedText created_at;
           row_score := score;
           row_title :=
             Str.take 80 text +:+ (if (80 <? String.length text)%nat then "..." else "");
           row_url := url;
           row_permalink := url;
           row_match_groups := Str.join ";" groups;
           row_willing_to_pay := yes_no pay;
           row_idea_key := key;
           row_snippet := snippet_of text |} in
      acc_add acc row pay.

Definition scan_bsky_query (compiled : list (string * Re.pattern))
    (limit_per_query : Z) (base_url raw_query : string) (acc : Acc) : M Acc :=
  let* '(posts, rate_info) := fetch_search_posts base_url raw_query limit_per_query in
  let acc := acc_fetch acc raw_query (len posts) rate_info in
  ret (fold_left (fun acc post => scan_bsky_post compiled raw_query post acc) posts acc).

Definition scan_bsky_queries (queries : list string) (limit_per_query : Z)
    (base_url : string) : M (list Row * Summary * Meta * Stats) :=
  let* compiled := lift compiled_or_raise in
  let* acc :=
    for_each queries (scan_bsky_query compiled limit_per_query base_url) acc_empty in
  ret (acc_rows acc, acc_summary acc,
       {| meta_queries := acc_meta acc; meta_instance := None |}, acc_stats acc).

(** ** Mastodon adapter ([app/mastodon_scanning.py]) *)

Definition DEFAULT_MASTODON_INSTANCE : string := "https://mastodon.social".

(** [re.sub(r"<[^>]+>", "", value)].  [pending] holds the text read since
    an opening angle bracket that may still start a tag; a tag needs at
    least one character before the closing bracket, and text after an
    opening bracket that is never closed is kept. *)
Fixpoint strip_tags (pending : option string) (s : string) : string :=
  match s with
  | EmptyString => default "" pending
  | String c r =>
      match pending with
      | None =>
          if Ascii.eqb c "<" then strip_tags (Some "<") r
          else String c (strip_tags None r)
      | Some buf =>
          if Ascii.eqb c ">" then
            if String.eqb buf "<" then "<>" +:+ strip_tags None r
            else strip_tags None r
          else strip_tags (Some (buf +:+ String c "")) r
      end
  end.

Definition strip_html (unescape : string -> string) (value : string) : string :=
  if negb (Str.truthy value) then ""
  else Str.strip (unescape (strip_tags None value)).

Definition fetch_statuses (instance_url query : string) (limit : Z)
    (token : option string) : M (list Status * RateInfo) :=
  let base := Str.rstrip_by (Ascii.eqb "/") instance_url in
  let auth :=
    match token with
    | Some t => if Str.truthy t then Some t else None
    | None => None
    end in
  let* result := ask (fun w => mastodon_search w base query (Z.min limit 40) auth) in
  match result with
  | inl e => raise e
  | inr response =>
      let code := mr_status_code response in
      if negb (code =? 200)%Z then
        if (code =? 401)%Z then raise "MASTODON_AUTH_ERROR: Unauthorized"
        else if (code =? 429)%Z then raise "MASTODON_RATE_LIMIT: Too Many Requests"
        else raise ("MASTODON_API_ERROR: " +:+ pretty code +:+ " " +:+ mr_text response)
      else ret (mr_statuses response, mr_rate response)
  end.

(** The cutoff test of one status: [true] when the status is skipped.  A
    creation time that is absent or that [fromisoformat] rejects passes. *)
Definition mastodon_too_old (parse : string -> option time) (cutoff : option time)
    (created_at : string) : bool :=
  match cutoff with
  | Some cutoff =>
      if Str.truthy created_at then
        match parse (Str.replace_char_by "Z" "+00:00" created_at) with
        | Some created_dt => (created_dt <? cutoff)%Z
        | None => false
        end
      else false
  | None => false
  end.

Definition scan_status (compiled : list (string * Re.pattern))
    (unescape : string -> string) (parse : string -> option time)
    (cutoff : option time) (raw_query : string) (status : Status) (acc : Acc) : Acc :=
  let created_at := st_created_at status in
  if mastodon_too_old parse cutoff created_at then acc
  else
    let text := strip_html unescape (st_content status) in
    if negb (Str.truthy text) then acc
    else
      let groups := match_groups text compiled in
      if negb (nonempty groups) then acc
      else
        let key := idea_key text in
        let pay := in_groups "pay" groups in
        let score :=
          (0 + st_favourites_count status + st_reblogs_count status
           + st_replies_count status)%Z in
        let url := str_or (st_url status) (st_uri status) in
        let row :=
          {| row_source := "Mastodon";
             row_subreddit := "mastodon:" +:+ raw_query;
             row_type := "status";
             row_id := st_id status;
             row_created_utc := CreatedText created_at;
             row_score := score;
             row_title :=
               Str.take 80 text +:+ (if (80 <? String.length text)%nat then "..." else "");
             row_url := url;
             row_permalink := url;
             row_match_groups := Str.join ";" groups;
             row_willing_to_pay := yes_no pay;
             row_idea_key := key;
             row_snippet := snippet_of text |} in
        acc_add acc row pay.

Definition scan_mastodon_query (compiled : list (string * Re.pattern))
    (unescape : string -> string) (parse : string -> option time)
    (cutoff : option time) (limit_per_query : Z) (instance_url : string)
    (token : option string) (raw_query : string) (acc : Acc) : M Acc :=
  let* '(statuses, rate_info) :=
    fetch_statuses instance_url raw_query limit_per_query token in
  let acc := acc_fetch acc raw_query (len statuses) rate_info in
  ret (fold_left
         (fun acc status => scan_status compiled unescape parse cutoff raw_query status acc)
         statuses acc).

Definition scan_mastodon_queries (queries : list string) (limit_per_query : Z)
    (instance_url : string) (since_days : Z) (token : option string)
  : M (list Row * Summary * Meta * Stats) :=
  let* compiled := lift compiled_or_raise in
  let* cutoff :=
    if (0 <? since_days)%Z
    then (let* t := now in ret (Some (t - since_days * DAY)%Z))
    else ret None in
  let* unescape := ask html_unescape in
  let* parse := ask fromisoformat in
  let* acc :=
    for_each queries
      (scan_mastodon_query compiled unescape parse cutoff limit_per_query
         instance_url token)
      acc_empty in
  ret (acc_rows acc, acc_summary acc,
       {| meta_queries := acc_meta acc; meta_instance := Some instance_url |},
       acc_stats acc).

(** ** Scan orchestrator ([app/main.py]) *)

Definition DEFAULT_SUBREDDITS : list string :=
  [ "Entrepreneur"; "startups"; "smallbusiness"; "SideProject"; "SaaS";
    "EntrepreneurRideAlong"; "androidapps"; "iosapps" ].

(** The update of one target bucket by one incoming bucket. *)
Definition merge_bucket (bucket data : Bucket) : Bucket :=
  let take_sample :=
    negb (Str.truthy (sample_title bucket)) && Str.truthy (sample_title data) in
  {| mentions := mentions bucket + mentions data;
     pay_mentions := pay_mentions bucket + pay_mentions data;
     sources := sources bucket ∪ sources data;
     subreddits := subreddits bucket ∪ subreddits data;
     sample_title := if take_sample then sample_title data else sample_title bucket;
     sample_url := if take_sample then sample_url data else sample_url bucket |}.

(** [merge_summaries(target, incoming)]; the result is the target after the
    call.  The target's buckets are created by [_new_summary_bucket], so no
    bucket is shared with [incoming]. *)
Definition merge_summaries (target incoming : Summary) : Summary :=
  fold_left
    (fun target '(key, data) =>
       let bucket := default _new_summary_bucket (Dict.get key target) in
       Dict.set key (merge_bucket bucket data) target)
    incoming target.

(** [utc_now()]. *)
Definition utc_now : M time := now.

Definition find_config (org_id : Z) (d : DB) : option Config :=
  List.find (fun c => (cfg_org_id c =? org_id)%Z) (scan_configs d).

Definition find_schedule (org_id : Z) (d : DB) : option Schedule :=
  List.find (fun s => (sch_org_id s =? org_id)%Z) (schedules d).

(** [INSERT INTO schedules]; [org_id] is the primary key. *)
Definition insert_schedule (s : Schedule) : M unit :=
  let* existing := ask (fun w => find_schedule (sch_org_id s) (db w)) in
  match existing with
  | Some _ => raise "UNIQUE constraint failed: schedules.org_id"
  | None =>
      modify_db (fun d =>
        {| scan_configs := scan_configs d; schedules := schedules d ++ [s];
           scans := scans d |})
  end.

(** [INSERT INTO scan_configs]; [org_id] is the primary key. *)
Definition insert_config (c : Config) : M unit :=
  let* existing := ask (fun w => find_config (cfg_org_id c) (db w)) in
  match existing with
  | Some _ => raise "UNIQUE constraint failed: scan_configs.org_id"
  | None =>
      modify_db (fun d =>
        {| scan_configs := scan_configs d ++ [c]; schedules := schedules d;
           scans := scans d |})
  end.

Definition default_config (org_id : Z) (t : time) : Config :=
  {| cfg_org_id := org_id;
     cfg_subreddits := Str.join "," DEFAULT_SUBREDDITS;
     cfg_since_days := 30;
     cfg_post_limit := 200;
     cfg_include_comments := 1;
     cfg_comment_limit := 200;
     cfg_require_app_request := 0;
     cfg_x_enabled := 0;
     cfg_x_queries := "app for,tool for,looking for";
     cfg_x_since_days := 7;
     cfg_x_post_limit := 100;
     cfg_x_language := "en";
     cfg_x_include_retweets := 0;
     cfg_bsky_enabled := 0;
     cfg_bsky_queries := "app for,looking for";
     cfg_bsky_post_limit := 100;
     cfg_bsky_base_url := DEFAULT_BSKY_BASE_URL;
     cfg_mastodon_enabled := 0;
     cfg_mastodon_instance := DEFAULT_MASTODON_INSTANCE;
     cfg_mastodon_queries := "app for,looking for";
     cfg_mastodon_post_limit := 40;
     cfg_mastodon_since_days := 7;
     cfg_updated_utc := t |}.

Definition ensure_org_config (org_id : Z) : M (option Config) :=
  let* config := ask (fun w => find_config org_id (db w)) in
  let* schedule := ask (fun w => find_schedule org_id (db w)) in
  match config, schedule with
  | Some c, Some _ => ret (Some c)
  | Some c, None =>
      let* t := utc_now in
      let* _ := insert_schedule
                  {| sch_org_id := org_id; sch_interval_hours := 0;
                     sch_last_run_utc := None; sch_updated_utc := t |} in
      ret (Some c)
  | None, _ =>
      let* t := utc_now in
      let* _ := insert_config (default_config org_id t) in
      let* _ := insert_schedule
                  {| sch_org_id := org_id; sch_interval_hours := 0;
                     sch_last_run_utc := None; sch_updated_utc := t |} in
      ask (fun w => find_config org_id (db w))
  end.

(** The local variables of [run_scan_for_org]. *)
Record ScanState : Type := {
  ss_rows : list Row;
  ss_summary : Summary;
  ss_reddit_meta : list (string * Z);
  ss_x_meta : option Meta;
  ss_bsky_meta : option Meta;
  ss_mastodon_meta : option Meta;
  ss_reddit_stats : Stats;
  ss_x_stats : Stats;
  ss_bsky_stats : Stats;
  ss_mastodon_stats : Stats;
  ss_warnings : list string;
}.

Definition zero_stats : Stats := {| fetched_total := 0; matched := 0 |}.

Definition ss_init : ScanState :=
  {| ss_rows := []; ss_summary := [];
     ss_reddit_meta := []; ss_x_meta := None; ss_bsky_meta := None;
     ss_mastodon_meta := None;
     ss_reddit_stats := zero_stats; ss_x_stats := zero_stats;
     ss_bsky_stats := zero_stats; ss_mastodon_stats := zero_stats;
     ss_warnings := [] |}.

(** [warnings.append(message)]. *)
Definition warn (st : ScanState) (message : string) : ScanState :=
  {| ss_rows := ss_rows st; ss_summary := ss_summary st;
     ss_reddit_meta := ss_reddit_meta st; ss_x_meta := ss_x_meta st;
     ss_bsky_meta := ss_bsky_meta st; ss_mastodon_meta := ss_mastodon_meta st;
     ss_reddit_stats := ss_reddit_stats st; ss_x_stats := ss_x_stats st;
     ss_bsky_stats := ss_bsky_stats st; ss_mastodon_stats := ss_mastodon_stats st;
     ss_warnings := ss_warnings st ++ [message] |}.

Definition reddit_block (config : Config) (st : ScanState) : M ScanState :=
  let subreddits := Str.split_list (cfg_subreddits config) in
  if nonempty subreddits then
    try_except
      (let* reddit := load_reddit in
       let* '(reddit_rows, reddit_summary, reddit_stats) :=
         scan_subreddits reddit subreddits (cfg_post_limit config)
           (cfg_since_days config) (negb (cfg_include_comments config =? 0)%Z)
           (cfg_comment_limit config) (negb (cfg_require_app_request config =? 0)%Z) in
       let reddit_meta :=
         match auth_limits reddit with
         | inr limits => limits
         | inl _ => []
         end in
       ret {| ss_rows := ss_rows st ++ reddit_rows;
              ss_summary := merge_summaries (ss_summary st) reddit_summary;
              ss_reddit_meta := reddit_meta; ss_x_meta := ss_x_meta st;
              ss_bsky_meta := ss_bsky_meta st; ss_mastodon_meta := ss_mastodon_meta st;
              ss_reddit_stats :=
                {| fetched_total := rs_fetched_total reddit_stats;
                   matched := rs_matched reddit_stats |};
              ss_x_stats := ss_x_stats st;
              ss_bsky_stats := ss_bsky_stats st;
              ss_mastodon_stats := ss_mastodon_stats st;
              ss_warnings := ss_warnings st |})
      (fun e => ret (warn st ("Reddit scan skipped: " +:+ e)))
  else ret st.

Definition x_warning (message : exc) : string :=
  if Str.contains "X_CREDITS_DEPLETED" message
  then "X credits depleted. Add credits in your X developer portal to fetch data."
  else if Str.contains "X_AUTH_ERROR" message || Str.contains "401" message
  then "X authentication failed. Check your bearer token and plan access."
  else "X scan skipped: " +:+ message.

Definition x_block (config : Config) (st : ScanState) : M ScanState :=
  if negb (cfg_x_enabled config =? 0)%Z && Str.truthy (cfg_x_queries config) then
    let queries := Str.split_list (cfg_x_queries config) in
    if nonempty queries then
      try_except
        (let* '(x_rows, x_summary, x_meta, x_stats) :=
           scan_x_queries queries (cfg_x_post_limit config) (cfg_x_since_days config)
             (cfg_x_language config) (negb (cfg_x_include_retweets config =? 0)%Z) in
         ret {| ss_rows := ss_rows st ++ x_rows;
                ss_summary := merge_summaries (ss_summary st) x_summary;
                ss_reddit_meta := ss_reddit_meta st; ss_x_meta := Some x_meta;
                ss_bsky_meta := ss_bsky_meta st; ss_mastodon_meta := ss_mastodon_meta st;
                ss_reddit_stats := ss_reddit_stats st; ss_x_stats := x_stats;
                ss_bsky_stats := ss_bsky_stats st;
                ss_mastodon_stats := ss_mastodon_stats st;
                ss_warnings := ss_warnings st |})
        (fun e => ret (warn st (x_warning e)))
    else ret st
  else ret st.

Definition bsky_warning (message : exc) : string :=
  if Str.contains "BSKY_RATE_LIMIT" message
  then "Bluesky rate limit reached. Try again later."
  else if Str.contains "BSKY_AUTH_ERROR" message
  then "Bluesky auth failed. Check your endpoint."
  else if Str.contains "BSKY_FORBIDDEN" message
  then "Bluesky request blocked (403). Check VPN, firewall, or base URL."
  else "Bluesky scan skipped: " +:+ message.

Definition bsky_block (config : Config) (st : ScanState) : M ScanState :=
  if negb (cfg_bsky_enabled config =? 0)%Z && Str.truthy (cfg_bsky_queries config) then
    let queries := Str.split_list (cfg_bsky_queries config) in
    let base_url := str_or (cfg_bsky_base_url config) DEFAULT_BSKY_BASE_URL in
    if nonempty queries then
      try_except
        (let* '(bsky_rows, bsky_summary, bsky_meta, bsky_stats) :=
           scan_bsky_queries queries (cfg_bsky_post_limit config) base_url in
         ret {| ss_rows := ss_rows st ++ bsky_rows;
                ss_summary := merge_summaries (ss_summary st) bsky_summary;
                ss_reddit_meta := ss_reddit_meta st; ss_x_meta := ss_x_meta st;
                ss_bsky_meta := Some bsky_meta; ss_mastodon_meta := ss_mastodon_meta st;
                ss_reddit_stats := ss_reddit_stats st; ss_x_stats := ss_x_stats st;
                ss_bsky_stats := bsky_stats;
                ss_mastodon_stats := ss_mastodon_stats st;
                ss_warnings := ss_warnings st |})
        (fun e => ret (warn st (bsky_warning e)))
    else ret st
  else ret st.

Definition mastodon_warning (message : exc) : string :=
  if Str.contains "MASTODON_RATE_LIMIT" message
  then "Mastodon rate limit reached. Try again later."
  else if Str.contains "MASTODON_AUTH_ERROR" message
  then "Mastodon auth failed. Check your token or instance."
  else "Mastodon scan skipped: " +:+ message.

Definition mastodon_block (config : Config) (st : ScanState) : M ScanState :=
  if negb (cfg_mastodon_enabled config =? 0)%Z && Str.truthy (cfg_mastodon_queries config)
  then
    let queries := Str.split_list (cfg_mastodon_queries config) in
    let instance_url := str_or (cfg_mastodon_instance config) DEFAULT_MASTODON_INSTANCE in
    let* token := ask (fun w => getenv w "MASTODON_TOKEN") in
    if nonempty queries then
      try_except
        (let* '(mastodon_rows, mastodon_summary, mastodon_meta, mastodon_stats) :=
           scan_mastodon_queries queries (cfg_mastodon_post_limit config) instance_url
             (cfg_mastodon_since_days config) token in
         ret {| ss_rows := ss_rows st ++ mastodon_rows;
                ss_summary := merge_summaries (ss_summary st) mastodon_summary;
                ss_reddit_meta := ss_reddit_meta st; ss_x_meta := ss_x_meta st;
                ss_bsky_meta := ss_bsky_meta st; ss_mastodon_meta := Some mastodon_meta;
                ss_reddit_stats := ss_reddit_stats st; ss_x_stats := ss_x_stats st;
                ss_bsky_stats := ss_bsky_stats st;
                ss_mastodon_stats := mastodon_stats;
                ss_warnings := ss_warnings st |})
        (fun e => ret (warn st (mastodon_warning e)))
    else ret st
  else ret st.

(** [lastrowid] of the insertion into [scans] (AUTOINCREMENT). *)
Definition next_scan_id (d : DB) : Z :=
  (1 + fold_right Z.max 0 (List.map scan_id (scans d)))%Z.

(** The three insertions made under one [get_conn()]. *)
Definition persist_scan (org_id : Z) (st : ScanState) : M Z :=
  let* created := utc_now in
  let* id := ask (fun w => next_scan_id (db w)) in
  let* _ :=
    modify_db (fun d =>
      {| scan_configs := scan_configs d;
         schedules := schedules d;
         scans := scans d ++
           [ {| scan_id := id;
                scan_org_id := org_id;
                scan_created_utc := created;
                scan_reddit_rate_limit := ss_reddit_meta st;
                scan_x_rate_limit := ss_x_meta st;
                scan_reddit_fetched := fetched_total (ss_reddit_stats st);
                scan_reddit_matched := matched (ss_reddit_stats st);
                scan_x_fetched := fetched_total (ss_x_stats st);
                scan_x_matched := matched (ss_x_stats st);
                scan_warnings := ss_warnings st;
                scan_bsky_rate_limit := ss_bsky_meta st;
                scan_bsky_fetched := fetched_total (ss_bsky_stats st);
                scan_bsky_matched := matched (ss_bsky_stats st);
                scan_mastodon_rate_limit := ss_mastodon_meta st;
                scan_mastodon_fetched := fetched_total (ss_mastodon_stats st);
                scan_mastodon_matched := matched (ss_mastodon_stats st);
                scan_results := ss_rows st;
                scan_idea_summaries := ss_summary st |} ] |}) in
  ret id.

(** The adapters of one scan, each in its own failure boundary. *)
Definition run_sources (config : Config) : M ScanState :=
  let* st := reddit_block config ss_init in
  let* st := x_block config st in
  let* st := bsky_block config st in
  mastodon_block config st.

Definition run_scan_for_org (org_id : Z) : M (Z * Z * Z * list string) :=
  let* _ := emit (ScanStarted org_id) in
  let* config := ask (fun w => find_config org_id (db w)) in
  let* config :=
    match config with
    | Some c => ret (Some c)
    | None => ensure_org_config org_id
    end in
  match config with
  | None => raise "TypeError: 'NoneType' object is not subscriptable"
  | Some config =>
      let* st := run_sources config in
      let* id := persist_scan org_id st in
      ret (id, len (ss_rows st), len (ss_summary st), ss_warnings st)
  end.

(** ** Trend engine ([app/main.py])

    Python floats are modelled by exact rationals, and [round(x, n)] by
    rounding to the nearest multiple of [10^-n], ties to the even one.  The
    texts derived for display (persona, brief, problem statement, MVP angle,
    pricing hypothesis) are not part of this development. *)

(** A row of [idea_summaries] as [enrich_summary] reads it: [None] is a
    missing or NULL column. *)
Record IdeaRow : Type := {
  ir_idea_key : string;
  ir_mentions : option Z;
  ir_pay_mentions : option Z;
}.

(** A row of the previous scan's summary. *)
Record PrevRow : Type := {
  prev_mentions : Z;
  prev_pay_mentions : Z;
}.

Record Enriched : Type := {
  en_idea_key : string;
  en_mentions : Z;
  en_pay_mentions : Z;
  en_signal : string;
  en_pay_ratio : Q;
  en_mentions_per_day : Q;
  en_delta_mentions : option Z;
  en_delta_pay : option Z;
  en_momentum : string;
}.

Definition round_half_even (q : Q) : Z :=
  let f := Qfloor q in
  match Qcompare (q - inject_Z f) (1 # 2) with
  | Lt => f
  | Gt => (f + 1)%Z
  | Eq => if Z.even f then f else (f + 1)%Z
  end.

(** [round(x, ndigits)]. *)
Definition py_round (x : Q) (ndigits : nat) : Q :=
  let scale := (10 ^ Z.of_nat ndigits)%Z in
  Qmake (round_half_even (x * inject_Z scale)) (Z.to_pos scale).

Definition enrich_row (since_days : Z) (previous_map : option (list (string * PrevRow)))
    (row : IdeaRow) : Enriched :=
  let mentions := default 0%Z (ir_mentions row) in
  let pay_mentions := default 0%Z (ir_pay_mentions row) in
  let signal :=
    if (2 <=? pay_mentions)%Z || (12 <=? mentions)%Z then "High"
    else if (1 <=? pay_mentions)%Z || (5 <=? mentions)%Z then "Medium"
    else "Low" in
  let pay_ratio :=
    if negb (mentions =? 0)%Z
    then py_round ((inject_Z pay_mentions / inject_Z mentions) * 100) 1
    else 0%Q in
  let mentions_per_day :=
    if negb (since_days =? 0)%Z
    then py_round (inject_Z mentions / inject_Z since_days) 2
    else 0%Q in
  let prev :=
    match previous_map with
    | Some m => Dict.get (ir_idea_key row) m
    | None => None
    end in
  let '(delta_mentions, delta_pay, momentum) :=
    match prev with
    | Some prev =>
        let delta_mentions := (mentions - prev_mentions prev)%Z in
        let delta_pay := (pay_mentions - prev_pay_mentions prev)%Z in
        (Some delta_mentions, Some delta_pay,
         if (3 <=? delta_mentions)%Z then "Up"
         else if (delta_mentions <=? -3)%Z then "Down"
         else "Flat")
    | None => (None, None, "New")
    end in
  {| en_idea_key := ir_idea_key row;
     en_mentions := mentions;
     en_pay_mentions := pay_mentions;
     en_signal := signal;
     en_pay_ratio := pay_ratio;
     en_mentions_per_day := mentions_per_day;
     en_delta_mentions := delta_mentions;
     en_delta_pay := delta_pay;
     en_momentum := momentum |}.

Definition enrich_summary (rows : list IdeaRow) (since_days : Z)
    (previous_map : option (list (string * PrevRow))) : list Enriched :=
  List.map (enrich_row since_days previous_map) rows.

(** ** Scheduler ([app/main.py]) *)

(** [UPDATE schedules SET last_run_utc = ?, updated_utc = ? WHERE org_id = ?]. *)
Definition update_last_run (org_id : Z) (last_run updated : time) (d : DB) : DB :=
  {| scan_configs := scan_configs d;
     schedules :=
       List.map
         (fun s =>
            if (sch_org_id s =? org_id)%Z
            then {| sch_org_id := sch_org_id s;
                    sch_interval_hours := sch_interval_hours s;
                    sch_last_run_utc := Some last_run;
                    sch_updated_utc := updated |}
            else s)
         (schedules d);
     scans := scans d |}.

(** The body of the loop of [run_due_scans].  The comparison of
    [delta_hours] with the interval is made on exact values. *)
Definition run_due_scan (schedule : Schedule) : M unit :=
  let interval := sch_interval_hours schedule in
  if (interval <=? 0)%Z then ret tt
  else
    let last_run := sch_last_run_utc schedule in
    let* t := now in
    let early :=
      match last_run with
      | Some last_dt => (t - last_dt <? interval * HOUR)%Z
      | None => false
      end in
    if early then ret tt
    else
      try_except
        (let* _ := run_scan_for_org (sch_org_id schedule) in
         let* updated := utc_now in
         modify_db (update_last_run (sch_org_id schedule) t updated))
        (fun _ => ret tt).

Definition run_due_scans : M unit :=
  let* all := ask (fun w => schedules (db w)) in
  for_each all (fun schedule _ => run_due_scan schedule) tt.

(** ** Persona, pricing and ordering of the dashboard ([app/main.py]) *)

Definition PERSONA_MAP : list (string * string) :=
  [ ("entrepreneur", "Founders");
    ("startups", "Founders");
    ("entrepreneurridealong", "Builders");
    ("sideproject", "Indie builders");
    ("saas", "SaaS founders");
    ("smallbusiness", "Small business owners");
    ("androidapps", "Android users");
    ("iosapps", "iOS users") ].

(** The body of the loop of [infer_persona] over the parts:
    [scores[p] = scores.get(p, 0) + 1] for the persona [p] of the part.
    [scores] is a dict in insertion order. *)
Definition score_part (scores : list (string * nat)) (part : string)
  : list (string * nat) :=
  if String.prefix "query:" part || String.prefix "x:" part
  then counter_add "X audience" scores
  else if String.prefix "bsky:" part then counter_add "Bluesky audience" scores
  else if String.prefix "mastodon:" part then counter_add "Mastodon audience" scores
  else
    let key := Str.lower part in
    let persona := default "General" (Dict.get key PERSONA_MAP) in
    counter_add persona scores.

(** [infer_persona(subreddits_text)]: the persona with the highest score;
    the sort is stable, so among equal scores the persona scored first
    wins. *)
Definition infer_persona (subreddits_text : string) : string :=
  if negb (Str.truthy subreddits_text) then "General"
  else
    let parts :=
      List.filter Str.truthy (List.map Str.strip (Str.split_on ";" subreddits_text)) in
    let scores := fold_left score_part parts [] in
    match sort_desc scores with
    | [] => "General"
    | (persona, _) :: _ => persona
    end.

(** [build_pricing_hypothesis(pay_ratio, mentions)].  The dash of the price
    ranges, U+2013, is held in its UTF-8 encoding. *)
Definition build_pricing_hypothesis (pay_ratio : Q) (mentions : Z) : string :=
  if Qle_bool 12 pay_ratio || (15 <=? mentions)%Z
  then "Test $29–$79/mo with a founder-friendly annual discount."
  else if Qle_bool 6 pay_ratio || (8 <=? mentions)%Z
  then "Test $12–$39/mo with a free trial and strong onboarding."
  else "Test freemium or a $9–$19 starter tier to validate demand.".

(** [sorted(rows, key=key, reverse=True)]: Python's sort is stable, also
    with [reverse=True]; rows with equal keys keep their order.  The row
    being inserted precedes, in the input, all rows already placed. *)
Fixpoint insert_reverse {A : Type} (key : A -> Q) (x : A) (l : list A) : list A :=
  match l with
  | [] => [x]
  | y :: r =>
      if Qle_bool (key y) (key x) then x :: y :: r
      else y :: insert_reverse key x r
  end.

Fixpoint sorted_reverse {A : Type} (key : A -> Q) (l : list A) : list A :=
  match l with
  | [] => []
  | x :: r => insert_reverse key x (sorted_reverse key r)
  end.

(** [sort_summary(rows, sort_by)] on enriched rows; [order.get(x, 0)] reads
    the rank of a label. *)
Definition sort_summary (rows : list Enriched) (sort_by : string) : list Enriched :=
  if String.eqb sort_by "pay_ratio"
  then sorted_reverse (fun row => en_pay_ratio row) rows
  else if String.eqb sort_by "pay_mentions"
  then sorted_reverse (fun row => inject_Z (en_pay_mentions row)) rows
  else if String.eqb sort_by "momentum" then
    let order := [("Up", 3%Z); ("New", 2%Z); ("Flat", 1%Z); ("Down", 0%Z)] in
    sorted_reverse
      (fun row => inject_Z (default 0%Z (Dict.get (en_momentum row) order))) rows
  else if String.eqb sort_by "signal" then
    let order := [("High", 3%Z); ("Medium", 2%Z); ("Low", 1%Z)] in
    sorted_reverse
      (fun row => inject_Z (default 0%Z (Dict.get (en_signal row) order))) rows
  else sorted_reverse (fun row => inject_Z (en_mentions row)) rows.

(** * Specification-level definitions *)

(** ** Pattern classifier *)

(** A text matches a pattern of a group: the pattern, compiled on its own
    with [re.IGNORECASE], is found somewhere in the text. *)
Definition pattern_found (text p : string) : bool :=
  match Re.compile p true with
  | Some c => Re.search c text
  | None => false
  end.

(** The alternation of the expressions [rs], as the parser nests it. *)
Fixpoint alternation (rs : list Re.regex) : Re.regex :=
  match rs with
  | [] => Re.Eps
  | [r] => r
  | r :: rest => Re.Alt r (alternation rest)
  end.

(** The patterns of a group, parsed one by one. *)
Definition group_parses (pats : list string) : option (list Re.regex) :=
  mapM Re.parse pats.

Definition EXAMPLE_TEXT : string := "I'd pay for an app that tracks my expenses".


(** The phrase of a pattern of the table: the pattern without the three
    characters that open it and the three that close it. *)
Definition phrase_of (p : string) : string :=
  String.substring 3 (String.length p - 6) p.

(** ** Idea key, as the specification words it *)

(** The alphabetic tokens of at least four letters, read off left to right:
    [cur] is the run of letters being read. *)
Fixpoint tokens_from (cur : string) (s : string) : list string :=
  match s with
  | EmptyString => if (4 <=? String.length cur)%nat then [cur] else []
  | String c r =>
      if Str.is_az c then tokens_from (cur +:+ String c EmptyString) r
      else (if (4 <=? String.length cur)%nat then [cur] else []) ++ tokens_from "" r
  end.

(** Lower-case the text, extract the tokens, drop the stop words. *)
Definition spec_tokens (text : string) : list string :=
  List.filter (fun w => negb (bool_decide (w ∈ STOPWORDS)))
    (tokens_from "" (Str.lower text)).

(** The frequency of a token. *)
Fixpoint freq (w : string) (ws : list string) : nat :=
  match ws with
  | [] => 0
  | x :: r => (if String.eqb x w then 1 else 0) + freq w r
  end.

(** The position of the first occurrence of a token. *)
Fixpoint first_index (w : string) (ws : list string) : nat :=
  match ws with
  | [] => 0
  | x :: r => if String.eqb x w then 0 else S (first_index w r)
  end.

(** [a] ranks before [b]: it is more frequent, or as frequent and first
    seen earlier. *)
Definition ranks_before (ws : list string) (a b : string) : Prop :=
  freq b ws < freq a ws \/
  (freq a ws = freq b ws /\ first_index a ws < first_index b ws).

(** A ranking of the distinct tokens of [ws]. *)
Definition is_ranking (ws ranking : list string) : Prop :=
  NoDup ranking /\
  (forall w, w ∈ ranking <-> w ∈ ws) /\
  StronglySorted (ranks_before ws) ranking.

(** The key of a text: the sentinel when no token survives, otherwise the
    first six tokens of the ranking joined by single spaces. *)
Definition idea_key_spec (text key : string) : Prop :=
  match spec_tokens text with
  | [] => key = "uncategorized"
  | ws => exists ranking, is_ranking ws ranking /\ key = Str.join " " (take 6 ranking)
  end.

(** The order of a stable sort by descending count of items that [pos]
    orders in the input: larger counts first, equal counts in input order. *)
Definition count_then_pos (pos : string -> nat) (a b : string * nat) : Prop :=
  snd b < snd a \/ (snd a = snd b /\ pos (fst a) < pos (fst b)).

(** The ranking that [idea_key] computes. *)
Definition ranking_of (ws : list string) : list string :=
  (sort_desc (Counter ws)).*1.

(** The counter of a list of words: its keys are the distinct words in the
    order of their first occurrence, each with its frequency. *)
Record counter_inv (p : list string) (c : list (string * nat)) : Prop := {
  ci_nodup : NoDup c.*1;
  ci_keys : forall k, k ∈ c.*1 <-> k ∈ p;
  ci_count : forall k, k ∈ p -> Dict.get k c = Some (freq k p);
  ci_order : StronglySorted (fun a b => first_index a p < first_index b p) c.*1;
}.

(** ** Idea summaries *)

(** The sum of [mentions] over the buckets of a summary. *)
Definition total_mentions (s : Summary) : Z :=
  fold_right Z.add 0%Z (List.map (fun kv => mentions (snd kv)) s).

Definition bucket_ok (b : Bucket) : Prop := (pay_mentions b <= mentions b)%Z.

Definition summary_ok (s : Summary) : Prop := Forall (fun kv => bucket_ok (snd kv)) s.

(** The aggregate fields of a bucket: everything but the sample. *)
Definition aggregate (b : Bucket) : Z * Z * gset string * gset string :=
  (mentions b, pay_mentions b, sources b, subreddits b).

(** The buckets that a summary holds for a key. *)
Definition contrib (key : string) (s : Summary) : list Bucket :=
  List.map snd (List.filter (fun kv => String.eqb (fst kv) key) s).

(** The aggregate fields after one more bucket. *)
Definition agg_plus (a : Z * Z * gset string * gset string) (data : Bucket)
  : Z * Z * gset string * gset string :=
  let '(m, p, s, u) := a in
  ((m + mentions data)%Z, (p + pay_mentions data)%Z,
   s ∪ sources data, u ∪ subreddits data).

Definition agg_step (o : option (Z * Z * gset string * gset string)) (data : Bucket)
  : option (Z * Z * gset string * gset string) :=
  Some (agg_plus (default (aggregate _new_summary_bucket) o) data).

(** The aggregate fields of a list of buckets. *)
Definition agg_total (bs : list Bucket) : Z * Z * gset string * gset string :=
  (fold_right Z.add 0%Z (List.map mentions bs),
   fold_right Z.add 0%Z (List.map pay_mentions bs),
   ⋃ (List.map sources bs), ⋃ (List.map subreddits bs)).

(** ** Adapters and scans *)

(** What holds of the rows and the summary an adapter returns: the summary
    counts every row once, no bucket has more pay mentions than mentions,
    and every row satisfies [P]. *)
Definition result_ok (P : Row -> Prop) (rows : list Row) (summary : Summary) : Prop :=
  summary_ok summary /\
  total_mentions summary = len rows /\
  Forall P rows.

Definition acc_ok (P : Row -> Prop) (acc : Acc) : Prop :=
  result_ok P (acc_rows acc) (acc_summary acc).

(** A Mastodon row passed the cutoff test. *)
Definition mastodon_row_ok (parse : string -> option time) (cutoff : option time)
    (r : Row) : Prop :=
  row_source r = "Mastodon" /\
  exists s, row_created_utc r = CreatedText s /\ mastodon_too_old parse cutoff s = false.

(** A Reddit row is not older than the cutoff. *)
Definition reddit_row_ok (cutoff : time) (r : Row) : Prop :=
  row_source r = "Reddit" /\
  exists t, row_created_utc r = CreatedAt t /\ (cutoff <= t)%Z.

Definition racc_ok (P : Row -> Prop) (acc : RedditAcc) : Prop :=
  result_ok P (ra_rows acc) (ra_summary acc).

(** A computation that touches nothing but the clock. *)
Definition clock_only {A : Type} (m : M A) : Prop :=
  forall w, exists n, snd (m w) = with_reads n w.

Inductive Source : Type := SReddit | SX | SBluesky | SMastodon.

Definition source_name (src : Source) : string :=
  match src with
  | SReddit => "Reddit"
  | SX => "X"
  | SBluesky => "Bluesky"
  | SMastodon => "Mastodon"
  end.

(** The guard of the block of a source in [run_scan_for_org]. *)
Definition attempted (config : Config) (src : Source) : bool :=
  match src with
  | SReddit => nonempty (Str.split_list (cfg_subreddits config))
  | SX =>
      negb (cfg_x_enabled config =? 0)%Z && Str.truthy (cfg_x_queries config)
      && nonempty (Str.split_list (cfg_x_queries config))
  | SBluesky =>
      negb (cfg_bsky_enabled config =? 0)%Z && Str.truthy (cfg_bsky_queries config)
      && nonempty (Str.split_list (cfg_bsky_queries config))
  | SMastodon =>
      negb (cfg_mastodon_enabled config =? 0)%Z
      && Str.truthy (cfg_mastodon_queries config)
      && nonempty (Str.split_list (cfg_mastodon_queries config))
  end.

(** The adapter call made inside the failure boundary of a source. *)
Definition reddit_call (config : Config) : M (list Row * Summary * RedditStats) :=
  let* reddit := load_reddit in
  scan_subreddits reddit (Str.split_list (cfg_subreddits config))
    (cfg_post_limit config) (cfg_since_days config)
    (negb (cfg_include_comments config =? 0)%Z) (cfg_comment_limit config)
    (negb (cfg_require_app_request config =? 0)%Z).

Definition x_call (config : Config) : M (list Row * Summary * Meta * Stats) :=
  scan_x_queries (Str.split_list (cfg_x_queries config)) (cfg_x_post_limit config)
    (cfg_x_since_days config) (cfg_x_language config)
    (negb (cfg_x_include_retweets config =? 0)%Z).

Definition bsky_call (config : Config) : M (list Row * Summary * Meta * Stats) :=
  scan_bsky_queries (Str.split_list (cfg_bsky_queries config))
    (cfg_bsky_post_limit config)
    (str_or (cfg_bsky_base_url config) DEFAULT_BSKY_BASE_URL).

Definition mastodon_call (config : Config) : M (list Row * Summary * Meta * Stats) :=
  fun w =>
    scan_mastodon_queries (Str.split_list (cfg_mastodon_queries config))
      (cfg_mastodon_post_limit config)
      (str_or (cfg_mastodon_instance config) DEFAULT_MASTODON_INSTANCE)
      (cfg_mastodon_since_days config) (getenv w "MASTODON_TOKEN") w.

(** Whether the adapter of a source raises when called in world [w]. *)
Definition raises {A : Type} (m : M A) (w : World) : Prop :=
  exists e w', m w = (inl e, w').

Definition adapter_raises (config : Config) (src : Source) (w : World) : Prop :=
  match src with
  | SReddit => raises (reddit_call config) w
  | SX => raises (x_call config) w
  | SBluesky => raises (bsky_call config) w
  | SMastodon => raises (mastodon_call config) w
  end.

(** The world in which the block of a source starts, when the scan's
    sources start in world [w]. *)
Definition world_at (config : Config) (src : Source) (w : World) : World :=
  match src with
  | SReddit => w
  | SX => snd (reddit_block config ss_init w)
  | SBluesky =>
      snd ((let* st := reddit_block config ss_init in x_block config st) w)
  | SMastodon =>
      snd ((let* st := reddit_block config ss_init in
            let* st := x_block config st in
            bsky_block config st) w)
  end.

(** The source is attempted and its adapter raises during the scan whose
    sources start in world [w]. *)
Definition source_fails (config : Config) (src : Source) (w : World) : Prop :=
  attempted config src = true /\ adapter_raises config src (world_at config src w).

(** The world in which the sources of a scan of [org_id] start. *)
Definition scan_start (org_id : Z) (w : World) : World :=
  with_log (log w ++ [ScanStarted org_id]) w.

(** What the block of a source, started in world [w], adds to the local
    variables of the scan: rows labelled with the source and a summary that
    counts them; nothing but one warning that mentions the source when the
    adapter raises; nothing at all when the source is not attempted. *)
Definition contribution (config : Config) (src : Source) (w : World)
    (rows : list Row) (summary : Summary) (warns : list string) : Prop :=
  result_ok (fun r => row_source r = source_name src) rows summary /\
  (attempted config src = true -> adapter_raises config src w ->
   rows = [] /\ summary = [] /\
   exists m, warns = [m] /\ Str.contains (source_name src) m = true) /\
  (attempted config src = true -> ~ adapter_raises config src w -> warns = []) /\
  (attempted config src = false -> rows = [] /\ summary = [] /\ warns = []).

(** A block extends the state [st] to [st'] by a contribution. *)
Definition extends (st st' : ScanState) (rows : list Row) (summary : Summary)
    (warns : list string) : Prop :=
  ss_rows st' = ss_rows st ++ rows /\
  ss_summary st' = merge_summaries (ss_summary st) summary /\
  ss_warnings st' = ss_warnings st ++ warns.

(** The block of a source never raises, touches nothing but the clock, and
    extends the state by the contribution of the source. *)
Definition block_spec (src : Source) (block : Config -> ScanState -> M ScanState) : Prop :=
  forall config st w,
  exists st' n rows summary warns,
    block config st w = (inr st', with_reads n w) /\
    extends st st' rows summary warns /\
    contribution config src w rows summary warns.

(** The scan that [persist_scan] writes for the state [st]. *)
Definition scan_of (org_id : Z) (st : ScanState) (id : Z) (created : time) : Scan :=
  {| scan_id := id;
     scan_org_id := org_id;
     scan_created_utc := created;
     scan_reddit_rate_limit := ss_reddit_meta st;
     scan_x_rate_limit := ss_x_meta st;
     scan_reddit_fetched := fetched_total (ss_reddit_stats st);
     scan_reddit_matched := matched (ss_reddit_stats st);
     scan_x_fetched := fetched_total (ss_x_stats st);
     scan_x_matched := matched (ss_x_stats st);
     scan_warnings := ss_warnings st;
     scan_bsky_rate_limit := ss_bsky_meta st;
     scan_bsky_fetched := fetched_total (ss_bsky_stats st);
     scan_bsky_matched := matched (ss_bsky_stats st);
     scan_mastodon_rate_limit := ss_mastodon_meta st;
     scan_mastodon_fetched := fetched_total (ss_mastodon_stats st);
     scan_mastodon_matched := matched (ss_mastodon_stats st);
     scan_results := ss_rows st;
     scan_idea_summaries := ss_summary st |}.


(** ** Example worlds *)

Definition no_rate : RateInfo :=
  {| rate_limit := None; rate_remaining := None; rate_reset := None |}.

(** A submission of 1 January 2024 that asks for an app, with the markers
    of the pattern table written out, and one of the year 2001. *)
Definition example_submission : Submission :=
  {| s_id := "s1"; s_created_utc := 1704067200000000%Z; s_score := 12;
     s_title := "\bis there an app\b for expense tracking";
     s_selftext := "\bi'd pay\b for expense tracking";
     s_url := "https://example.org"; s_permalink := "/r/SaaS/comments/s1";
     s_comments := [NodeMore 3] |}.

Definition old_submission : Submission :=
  {| s_id := "s0"; s_created_utc := 978307200000000%Z; s_score := 1;
     s_title := "\bis there an app\b for budgets";
     s_selftext := "";
     s_url := "https://example.org"; s_permalink := "/r/SaaS/comments/s0";
     s_comments := [] |}.

Definition example_reddit : Reddit :=
  {| subreddit_new := fun _ _ => inr [example_submission; old_submission];
     replace_more := fun forest => inr forest;
     comments_list := fun _ => [];
     auth_limits := inr [] |}.

Definition old_tweet : Tweet :=
  {| tw_id := "1"; tw_text := "\bi'd pay\b for a budget planner";
     tw_created_at := "2001-01-01T00:00:00Z";
     tw_like_count := 2; tw_retweet_count := 1 |}.

Definition old_post : BskyPost :=
  {| bp_uri := "at://did/app.bsky.feed.post/3k"; bp_cid := "c1"; bp_handle := "a.bsky.social";
     bp_record_text := "\bwilling to pay\b for a budget planner"; bp_text := "";
     bp_record_createdAt := "2001-01-01T00:00:00Z"; bp_indexedAt := "";
     bp_likeCount := 0; bp_repostCount := 0; bp_replyCount := 0 |}.

Definition example_status : Status :=
  {| st_id := "m1"; st_created_at := "2024-01-01T00:00:00Z";
     st_content := "<p>\bwish there was\b a budget planner</p>";
     st_url := "https://mastodon.social/@a/1"; st_uri := "";
     st_favourites_count := 1; st_reblogs_count := 0; st_replies_count := 0 |}.

(** The tenth of January 2024, with the clock advancing a second a reading. *)
Definition example_clock (n : nat) : time :=
  (1704844800000000 + Z.of_nat n * 1000000)%Z.

Definition example_fromisoformat (s : string) : option time :=
  if String.eqb s "2001-01-01T00:00:00+00:00" then Some 978307200000000%Z
  else if String.eqb s "2024-01-01T00:00:00+00:00" then Some 1704067200000000%Z
  else None.

Definition example_schedule (org_id interval : Z) (last_run : option time) : Schedule :=
  {| sch_org_id := org_id; sch_interval_hours := interval;
     sch_last_run_utc := last_run; sch_updated_utc := 0%Z |}.

Definition example_config : Config := default_config 1 0%Z.

(** Organization 3 has every source enabled, with one query each. *)
Definition full_config : Config :=
  {| cfg_org_id := 3;
     cfg_subreddits := "SaaS, startups";
     cfg_since_days := 30;
     cfg_post_limit := 200;
     cfg_include_comments := 1;
     cfg_comment_limit := 200;
     cfg_require_app_request := 0;
     cfg_x_enabled := 1;
     cfg_x_queries := "budget";
     cfg_x_since_days := 7;
     cfg_x_post_limit := 100;
     cfg_x_language := "en";
     cfg_x_include_retweets := 0;
     cfg_bsky_enabled := 1;
     cfg_bsky_queries := "budget";
     cfg_bsky_post_limit := 100;
     cfg_bsky_base_url := DEFAULT_BSKY_BASE_URL;
     cfg_mastodon_enabled := 1;
     cfg_mastodon_instance := DEFAULT_MASTODON_INSTANCE;
     cfg_mastodon_queries := "budget";
     cfg_mastodon_post_limit := 40;
     cfg_mastodon_since_days := 7;
     cfg_updated_utc := 0%Z |}.

(** A world with credentials for X only: Reddit fails for want of
    credentials; organization 1 has the default configuration, organization 3 one with
    every source enabled; organization 1 has a daily
    schedule last run 30 hours before the first reading of the clock;
    organization 2, first in the table, has a schedule but no
    configuration. *)
Definition example_world : World :=
  {| getenv := fun name => if String.eqb name "X_BEARER_TOKEN" then Some "token" else None;
     clock := example_clock;
     reads := 0;
     praw_client := example_reddit;
     x_search := fun _ _ _ =>
       [inr {| xr_status_code := 200; xr_text := ""; xr_title := ""; xr_detail := "";
               xr_type := ""; xr_rate := no_rate; xr_data := [old_tweet];
               xr_next_token := None |}];
     bsky_search := fun _ _ _ =>
       inr {| br_status_code := 200; br_text := ""; br_rate := no_rate;
              br_posts := [old_post] |};
     mastodon_search := fun _ _ _ _ =>
       inr {| mr_status_code := 200; mr_text := ""; mr_rate := no_rate;
              mr_statuses := [example_status] |};
     html_unescape := fun s => s;
     fromisoformat := example_fromisoformat;
     db := {| scan_configs := [example_config; full_config];
              schedules :=
                [ example_schedule 2 24 None;
                  example_schedule 1 24 (Some (example_clock 0 - 30 * HOUR)%Z) ];
              scans := [] |};
     log := [] |}.

(** ** Scheduler *)



(** The orchestrator is invoked for the schedule: the log gains the
    invocation. *)
Definition invoked (schedule : Schedule) (w : World) : Prop :=
  log (snd (run_due_scan schedule w)) = log w ++ [ScanStarted (sch_org_id schedule)].


(** ** Further specification-level definitions *)

(** The character [c] occurs in [s]. *)
Fixpoint has_char (c : ascii) (s : string) : bool :=
  match s with
  | EmptyString => false
  | String d r => Ascii.eqb c d || has_char c r
  end.

(** A string that [str.strip()] leaves as it is and that can be an item of
    a comma-separated list: not empty, no comma, no blank at either end. *)
Definition list_item (q : string) : Prop :=
  q <> "" /\ Str.strip q = q /\ Str.contains "," q = false.


(** * Properties *)

(** ** Pattern classifier *)

Lemma compile_patterns_ok : compile_patterns = Some compiled_groups.
Proof. vm_compute. reflexivity. Qed.

Lemma matches_at_alt icase a b s :
  Re.matches_at icase (Re.Alt a b) s
  = Re.matches_at icase a s || Re.matches_at icase b s.
Proof.
  unfold Re.matches_at. simpl.
  destruct (Re.run icase a s); simpl; [ | reflexivity].
  destruct (Re.run icase b s); reflexivity.
Qed.

Lemma search_from_alt icase a b s :
  Re.search_from icase (Re.Alt a b) s
  = Re.search_from icase a s || Re.search_from icase b s.
Proof.
  induction s as [ | c s IH]; simpl.
  - rewrite matches_at_alt. now rewrite !orb_false_r.
  - rewrite matches_at_alt, IH.
    destruct (Re.matches_at icase a (String c s)),
             (Re.matches_at icase b (String c s)),
             (Re.search_from icase a s); reflexivity.
Qed.

Lemma search_alternation icase r rs text :
  Re.search_from icase (alternation (r :: rs)) text
  = existsb (fun r => Re.search_from icase r text) (r :: rs).
Proof.
  revert r. induction rs as [ | r' rs IH]; intros r.
  - simpl. now rewrite orb_false_r.
  - change (alternation (r :: r' :: rs)) with (Re.Alt r (alternation (r' :: rs))).
    rewrite search_from_alt, IH. reflexivity.
Qed.

(** Joining the patterns of a group with a bar and compiling the result
    gives the alternation of the patterns compiled one by one. *)
Lemma compiled_groups_alternations :
  Forall2
    (fun (c : string * Re.pattern) (g : string * list string) =>
       fst c = fst g /\ Re.ignorecase (snd c) = true /\
       exists r rs, group_parses (snd g) = Some (r :: rs) /\
                    Re.rx (snd c) = alternation (r :: rs))
    compiled_groups PATTERN_GROUPS.
Proof.
  repeat constructor; simpl; eexists _, _; split; vm_compute; reflexivity.
Qed.

Lemma pattern_found_parse text p r :
  Re.parse p = Some r -> pattern_found text p = Re.search_from true r text.
Proof. unfold pattern_found, Re.compile. now intros ->. Qed.

Lemma group_found text pats rs :
  group_parses pats = Some rs ->
  existsb (pattern_found text) pats
  = existsb (fun r => Re.search_from true r text) rs.
Proof.
  unfold group_parses. revert rs.
  induction pats as [ | p pats IH]; intros rs H; simpl in H.
  - now injection H as <-.
  - destruct (Re.parse p) as [r | ] eqn:Hp; simpl in H; [ | discriminate].
    destruct (mapM Re.parse pats) as [rs' | ]; simpl in H; [ | discriminate].
    injection H as <-. simpl.
    now rewrite (pattern_found_parse _ _ _ Hp), (IH rs' eq_refl).
Qed.

Lemma match_groups_in text compiled name :
  In name (match_groups text compiled) <->
  exists rx, In (name, rx) compiled /\ Re.search rx text = true.
Proof.
  unfold match_groups. rewrite in_map_iff. split.
  - intros [[n rx] [<- H]]. apply filter_In in H as [H1 H2]. now exists rx.
  - intros (rx & H1 & H2). exists (name, rx). split; [reflexivity | ].
    apply filter_In. now split.
Qed.

Lemma classify_iff text name :
  In name (match_groups text compiled_groups) <->
  exists pats, In (name, pats) PATTERN_GROUPS /\
               exists p, In p pats /\ pattern_found text p = true.
Proof.
  rewrite match_groups_in.
  assert (H := compiled_groups_alternations). revert H.
  generalize compiled_groups, PATTERN_GROUPS.
  induction 1 as [ | [n c] [n' pats] cs gs (Hn & Hi & r & rs & Hp & Hr) _ IH];
    cbn [fst snd In] in *.
  - split; [intros (? & [] & _) | intros (? & [] & _)].
  - subst n'.
    assert (Hs : Re.search c text = existsb (pattern_found text) pats).
    { unfold Re.search. rewrite Hi, Hr, search_alternation.
      symmetry. now apply group_found. }
    split.
    + intros (rx & [Heq | Hin] & Hrx).
      * injection Heq as <- <-. exists pats. split; [now left | ].
        rewrite Hs in Hrx. apply existsb_exists in Hrx. exact Hrx.
      * destruct (proj1 IH (ex_intro _ rx (conj Hin Hrx))) as (ps & H1 & H2).
        exists ps. split; [now right | exact H2].
    + intros (ps & [Heq | Hin] & Hps).
      * injection Heq as <- <-. exists c. split; [now left | ].
        rewrite Hs. apply existsb_exists. exact Hps.
      * destruct (proj2 IH (ex_intro _ ps (conj Hin Hps))) as (rx & H1 & H2).
        exists rx. split; [now right | exact H2].
Qed.


(** Without the markers around them, the phrases of the [app_request] group
    are still absent from the example text, while a phrase of the [pay] group
    is present. *)
Lemma example_phrases :
  existsb (pattern_found EXAMPLE_TEXT)
    (List.map phrase_of (default [] (Dict.get "app_request" PATTERN_GROUPS))) = false /\
  existsb (pattern_found EXAMPLE_TEXT)
    (List.map phrase_of (default [] (Dict.get "pay" PATTERN_GROUPS))) = true.
Proof. split; vm_compute; reflexivity. Qed.

(** A text in which the markers occur literally is classified. *)
Example classify_literal_markers :
  match_groups "\bI'D pay\b and \bis there an app\b" compiled_groups
  = ["app_request"; "pay"].
Proof. vm_compute. reflexivity. Qed.

(** C1, as stated, fails: the example text is assigned no category. *)
Lemma C1_example_unclassified :
  ~ (In "app_request" (match_groups EXAMPLE_TEXT compiled_groups) /\
     In "pay" (match_groups EXAMPLE_TEXT compiled_groups)).
Proof.
  assert (H : match_groups EXAMPLE_TEXT compiled_groups = []) by (vm_compute; reflexivity).
  rewrite H. intros [[] _].
Qed.

(** C1 (amended): [compile_patterns] yields one case-insensitive alternation
    per group; a text is assigned a category exactly when some pattern of
    that category is found somewhere in the text; the empty text is assigned
    no category; and the example text is not assigned [app_request]. *)
Theorem C1_classifier :
  compile_patterns = Some compiled_groups /\
  (forall text name,
     In name (match_groups text compiled_groups) <->
     exists pats, In (name, pats) PATTERN_GROUPS /\
                  exists p, In p pats /\ pattern_found text p = true) /\
  match_groups "" compiled_groups = [] /\
  ~ In "app_request" (match_groups EXAMPLE_TEXT compiled_groups).
Proof.
  split; [exact compile_patterns_ok | ].
  split; [exact classify_iff | ].
  split; [vm_compute; reflexivity | ].
  assert (H : match_groups EXAMPLE_TEXT compiled_groups = []) by (vm_compute; reflexivity).
  rewrite H. intros [].
Qed.

Lemma C1_classifier_witness :
  In "pay" (match_groups "\bi'd pay\b" compiled_groups) <->
  exists pats, In ("pay", pats) PATTERN_GROUPS /\
               exists p, In p pats /\ pattern_found "\bi'd pay\b" p = true.
Proof. exact (proj1 (proj2 C1_classifier) "\bi'd pay\b" "pay"). Defined.

(** ** Idea key generator *)

Lemma string_app_assoc (a b c : string) : (a +:+ b) +:+ c = a +:+ (b +:+ c).
Proof. induction a as [ | x a IH]; [reflexivity | ]. change (String x ((a +:+ b) +:+ c) = String x (a +:+ (b +:+ c))). now f_equal. Qed.

Lemma string_app_empty (a : string) : a +:+ "" = a.
Proof. induction a as [ | x a IH]; [reflexivity | ]. change (String x (a +:+ "") = String x a). now f_equal. Qed.

Lemma az_runs_cons s : exists w ws, az_runs s = w :: ws.
Proof.
  induction s as [ | c s (w & ws & IH)]; simpl; [now eexists _, _ | ].
  destruct (Str.is_az c); [rewrite IH | ]; now eexists _, _.
Qed.

(** The two readings of the token pattern agree. *)
Lemma tokens_from_runs cur s :
  tokens_from cur s
  = List.filter (fun w => (4 <=? String.length w)%nat)
      (match az_runs s with
       | w :: ws => (cur +:+ w) :: ws
       | [] => [cur]
       end).
Proof.
  revert cur. induction s as [ | c s IH]; intros cur.
  - cbn -[Nat.leb String.length]. rewrite string_app_empty. reflexivity.
  - destruct (az_runs_cons s) as (w & ws & Hs).
    cbn [tokens_from az_runs]. destruct (Str.is_az c).
    + rewrite IH, Hs, string_app_assoc. reflexivity.
    + rewrite (IH ""), Hs, string_app_empty.
      cbn -[Nat.leb String.length].
      destruct (4 <=? String.length cur)%nat; reflexivity.
Qed.

Lemma findall_az4_tokens s : findall_az4 s = tokens_from "" s.
Proof.
  rewrite tokens_from_runs. unfold findall_az4.
  destruct (az_runs_cons s) as (w & ws & ->). reflexivity.
Qed.

Lemma is_stopword_decide w : is_stopword w = bool_decide (w ∈ STOPWORDS).
Proof.
  unfold is_stopword. generalize STOPWORDS as l.
  induction l as [ | x l IH]; cbn [existsb].
  - symmetry. apply bool_decide_eq_false_2, not_elem_of_nil.
  - rewrite IH. destruct (String.eqb_spec w x) as [-> | Hne]; cbn [orb].
    + symmetry. apply bool_decide_eq_true_2. left.
    + apply bool_decide_ext. rewrite elem_of_cons.
      split; [now right | intros [? | ?]; [contradiction | assumption]].
Qed.

Lemma idea_words_spec_tokens text : idea_words text = spec_tokens text.
Proof.
  unfold idea_words, spec_tokens. rewrite findall_az4_tokens.
  apply filter_ext. intros w. now rewrite is_stopword_decide.
Qed.

(** *** Frequencies and first occurrences *)

Lemma freq_app w p q : freq w (p ++ q) = freq w p + freq w q.
Proof. induction p as [ | x p IH]; simpl; [reflexivity | rewrite IH; lia]. Qed.

Lemma freq_notin w p : w ∉ p -> freq w p = 0.
Proof.
  induction p as [ | x p IH]; simpl; [reflexivity | ].
  rewrite not_elem_of_cons. intros [Hne Hp].
  destruct (String.eqb_spec x w); [congruence | ]. now rewrite IH.
Qed.

Lemma first_index_lt w p : w ∈ p -> first_index w p < length p.
Proof.
  induction p as [ | x p IH]; simpl.
  - intros H. now apply elem_of_nil in H.
  - rewrite elem_of_cons. intros H.
    destruct (String.eqb_spec x w) as [ | Hne]; [lia | ].
    destruct H as [-> | H]; [congruence | ]. apply IH in H. lia.
Qed.

Lemma first_index_notin w p : w ∉ p -> first_index w p = length p.
Proof.
  induction p as [ | x p IH]; simpl; [reflexivity | ].
  rewrite not_elem_of_cons. intros [Hne Hp].
  destruct (String.eqb_spec x w); [congruence | ]. now rewrite IH.
Qed.

Lemma first_index_app_in w p q : w ∈ p -> first_index w (p ++ q) = first_index w p.
Proof.
  induction p as [ | x p IH]; simpl.
  - intros H. now apply elem_of_nil in H.
  - rewrite elem_of_cons. intros H.
    destruct (String.eqb_spec x w) as [ | Hne]; [reflexivity | ].
    destruct H as [-> | H]; [congruence | ]. now rewrite IH.
Qed.

Lemma first_index_snoc_new w p : w ∉ p -> first_index w (p ++ [w]) = length p.
Proof.
  induction p as [ | x p IH]; simpl.
  - now rewrite String.eqb_refl.
  - rewrite not_elem_of_cons. intros [Hne Hp].
    destruct (String.eqb_spec x w); [congruence | ]. now rewrite IH.
Qed.

(** *** The counter *)

Lemma Counter_snoc p w : Counter (p ++ [w]) = counter_add w (Counter p).
Proof. unfold Counter. now rewrite fold_left_app. Qed.

Lemma counter_add_keys_old w (c : list (string * nat)) :
  w ∈ c.*1 -> (counter_add w c).*1 = c.*1.
Proof.
  induction c as [ | [k n] c IH]; csimpl.
  - intros H. now apply elem_of_nil in H.
  - rewrite elem_of_cons. intros H.
    destruct (String.eqb_spec k w) as [ | Hne]; [reflexivity | ].
    destruct H as [-> | H]; [congruence | ]. csimpl. now rewrite IH.
Qed.

Lemma counter_add_new w (c : list (string * nat)) :
  w ∉ c.*1 -> counter_add w c = c ++ [(w, 1)].
Proof.
  induction c as [ | [k n] c IH]; csimpl; [reflexivity | ].
  rewrite not_elem_of_cons. intros [Hne Hp].
  destruct (String.eqb_spec k w); [congruence | ]. now rewrite IH.
Qed.

Lemma get_counter_add k w (c : list (string * nat)) :
  Dict.get k (counter_add w c)
  = if String.eqb k w then Some (S (default 0 (Dict.get w c))) else Dict.get k c.
Proof.
  induction c as [ | [k' n'] c IH]; simpl.
  - rewrite (String.eqb_sym w k). now destruct (String.eqb k w).
  - destruct (String.eqb_spec k' w) as [-> | Hne]; simpl.
    + rewrite (String.eqb_sym w k). now destruct (String.eqb k w).
    + rewrite IH. destruct (String.eqb_spec k' k) as [-> | Hk].
      * destruct (String.eqb_spec k w); [congruence | reflexivity].
      * reflexivity.
Qed.

Lemma get_none_keys {V : Type} k (c : list (string * V)) :
  k ∉ c.*1 -> Dict.get k c = None.
Proof.
  induction c as [ | [k' v] c IH]; csimpl; [reflexivity | ].
  rewrite not_elem_of_cons. intros [Hne Hc].
  destruct (String.eqb_spec k' k); [congruence | auto].
Qed.

Lemma get_app {V : Type} k (c d : list (string * V)) :
  Dict.get k (c ++ d)
  = match Dict.get k c with Some v => Some v | None => Dict.get k d end.
Proof.
  induction c as [ | [k' v] c IH]; simpl; [reflexivity | ].
  now destruct (String.eqb k' k).
Qed.

Lemma get_elem_of {V : Type} k v (c : list (string * V)) :
  NoDup c.*1 -> (k, v) ∈ c -> Dict.get k c = Some v.
Proof.
  induction c as [ | [k' v'] c IH]; csimpl.
  - intros _ H. now apply elem_of_nil in H.
  - rewrite NoDup_cons, elem_of_cons. intros [Hk Hnd] [[= -> ->] | H].
    + now rewrite String.eqb_refl.
    + destruct (String.eqb_spec k' k) as [-> | Hne]; [ | auto].
      exfalso. apply Hk. apply list_elem_of_fmap. now exists (k, v).
Qed.

Lemma StronglySorted_impl_elem {A : Type} (R R' : A -> A -> Prop) (l : list A) :
  (forall a b, a ∈ l -> b ∈ l -> R a b -> R' a b) ->
  StronglySorted R l -> StronglySorted R' l.
Proof.
  intros H Hs. induction Hs as [ | a l Hs IH Ha]; constructor.
  - apply IH. intros x y Hx Hy. apply H; now right.
  - rewrite Forall_forall in *. intros b Hb.
    apply H; [left | now right | now apply Ha].
Qed.

Lemma counter_inv_snoc p c w :
  counter_inv p c -> counter_inv (p ++ [w]) (counter_add w c).
Proof.
  intros [Hnd Hk Hc Ho].
  destruct (decide (w ∈ p)) as [Hw | Hw].
  - assert (Hwc : w ∈ c.*1) by now apply Hk.
    split.
    + now rewrite counter_add_keys_old.
    + intros k. rewrite counter_add_keys_old, Hk, elem_of_app, list_elem_of_singleton by assumption.
      split; [now left | intros [? | ->]; assumption].
    + intros k Hkp. rewrite get_counter_add, freq_app.
      destruct (String.eqb_spec k w) as [-> | Hne].
      * rewrite (Hc w Hw). simpl. rewrite String.eqb_refl. f_equal. lia.
      * rewrite elem_of_app, list_elem_of_singleton in Hkp.
        destruct Hkp as [Hkp | ?]; [ | contradiction].
        rewrite (Hc k Hkp). simpl.
        destruct (String.eqb_spec w k); [congruence | f_equal; lia].
    + rewrite counter_add_keys_old by assumption.
      eapply StronglySorted_impl_elem; [ | exact Ho].
      intros a b Ha Hb. apply Hk in Ha, Hb.
      now rewrite !first_index_app_in.
  - assert (Hwc : w ∉ c.*1) by (now rewrite Hk).
    rewrite counter_add_new by assumption.
    split.
    + rewrite fmap_app. csimpl. apply NoDup_app. split; [assumption | ].
      split; [ | apply NoDup_singleton].
      intros x Hx Hx'. apply list_elem_of_singleton in Hx'. now subst.
    + intros k. rewrite fmap_app. csimpl. rewrite !elem_of_app, Hk. reflexivity.
    + intros k Hkp. rewrite freq_app, get_app.
      rewrite elem_of_app, list_elem_of_singleton in Hkp.
      destruct (decide (k = w)) as [-> | Hne].
      * rewrite (freq_notin w p Hw), (get_none_keys w c Hwc). simpl.
        now rewrite String.eqb_refl.
      * destruct Hkp as [Hkp | ?]; [ | contradiction].
        rewrite (Hc k Hkp). simpl.
        destruct (String.eqb_spec w k); [congruence | f_equal; lia].
    + rewrite fmap_app. csimpl. apply StronglySorted_app_2.
      * intros a b Ha Hb. apply list_elem_of_singleton in Hb. subst b.
        apply Hk in Ha. rewrite first_index_app_in, first_index_snoc_new by assumption.
        now apply first_index_lt.
      * eapply StronglySorted_impl_elem; [ | exact Ho].
        intros a b Ha Hb. apply Hk in Ha, Hb.
        now rewrite !first_index_app_in.
      * repeat constructor.
Qed.

Lemma Counter_inv ws : counter_inv ws (Counter ws).
Proof.
  induction ws as [ | w ws IH] using rev_ind.
  - split; csimpl.
    + constructor.
    + reflexivity.
    + intros k H. now apply elem_of_nil in H.
    + constructor.
  - rewrite Counter_snoc. now apply counter_inv_snoc.
Qed.

(** *** The stable sort by descending count *)

Lemma insert_desc_perm x l : insert_desc x l ≡ₚ x :: l.
Proof.
  induction l as [ | y l IH]; simpl; [reflexivity | ].
  destruct (snd x <? snd y)%nat; [ | reflexivity].
  rewrite IH. apply perm_swap.
Qed.

Lemma sort_desc_perm l : sort_desc l ≡ₚ l.
Proof.
  induction l as [ | x l IH]; simpl; [reflexivity | ].
  now rewrite insert_desc_perm, IH.
Qed.

Lemma insert_desc_sorted pos x l :
  Forall (fun y => pos (fst x) < pos (fst y)) l ->
  StronglySorted (count_then_pos pos) l ->
  StronglySorted (count_then_pos pos) (insert_desc x l).
Proof.
  intros Hx Hs. induction Hs as [ | y l Hs IH Hy]; simpl.
  - repeat constructor.
  - apply Forall_cons in Hx as [Hxy Hx].
    destruct (Nat.ltb_spec (snd x) (snd y)) as [Hlt | Hge].
    + constructor; [now apply IH | ].
      rewrite insert_desc_perm. constructor; [now left | assumption].
    + constructor; [now constructor | ].
      assert (Rxy : count_then_pos pos x y).
      { unfold count_then_pos. destruct (decide (snd x = snd y)); [right | left]; lia. }
      constructor; [assumption | ].
      rewrite Forall_forall in *. intros z Hz.
      specialize (Hy z Hz). specialize (Hx z Hz). unfold count_then_pos in *.
      destruct (decide (snd x = snd z)); [right | left]; lia.
Qed.

Lemma sort_desc_sorted pos l :
  StronglySorted (fun a b => pos (fst a) < pos (fst b)) l ->
  StronglySorted (count_then_pos pos) (sort_desc l).
Proof.
  induction 1 as [ | x l Hs IH Hx]; simpl; [constructor | ].
  apply insert_desc_sorted; [ | assumption].
  now rewrite sort_desc_perm.
Qed.

(** *** The ranking computed by [idea_key] *)

Lemma StronglySorted_fmap_fst (R : string -> string -> Prop) (l : list (string * nat)) :
  StronglySorted (fun a b => R (fst a) (fst b)) l -> StronglySorted R l.*1.
Proof.
  induction 1 as [ | x l Hs IH Hx]; csimpl; constructor; [assumption | ].
  rewrite Forall_fmap. exact Hx.
Qed.

Lemma StronglySorted_of_fmap_fst (R : string -> string -> Prop) (l : list (string * nat)) :
  StronglySorted R l.*1 -> StronglySorted (fun a b => R (fst a) (fst b)) l.
Proof.
  induction l as [ | x l IH]; csimpl; intros H; [constructor | ].
  apply StronglySorted_inv in H as [Hs Hx]. constructor; [auto | ].
  now rewrite Forall_fmap in Hx.
Qed.

Lemma ranking_of_is_ranking ws : is_ranking ws (ranking_of ws).
Proof.
  destruct (Counter_inv ws) as [Hnd Hk Hc Ho].
  assert (Hp : ranking_of ws ≡ₚ (Counter ws).*1).
  { unfold ranking_of. now rewrite sort_desc_perm. }
  split; [ | split].
  - now rewrite Hp.
  - intros w. now rewrite Hp.
  - unfold ranking_of. apply StronglySorted_fmap_fst.
    assert (Hcount : forall a n, (a, n) ∈ Counter ws -> n = freq a ws).
    { intros a n Ha.
      assert (Hin : a ∈ ws).
      { apply Hk. apply (list_elem_of_fmap_2 fst) in Ha. exact Ha. }
      apply (get_elem_of a n) in Ha; [ | assumption].
      rewrite (Hc a Hin) in Ha. congruence. }
    eapply StronglySorted_impl_elem;
      [ | apply (sort_desc_sorted (fun k => first_index k ws)),
                (StronglySorted_of_fmap_fst
                   (fun a b => first_index a ws < first_index b ws)), Ho].
    intros [a n] [b m] Ha Hb. unfold count_then_pos. simpl.
    rewrite sort_desc_perm in Ha, Hb.
    apply Hcount in Ha, Hb. subst n m. unfold ranks_before. tauto.
Qed.

Lemma ranking_unique ws l1 l2 : is_ranking ws l1 -> is_ranking ws l2 -> l1 = l2.
Proof.
  intros (Hn1 & Hi1 & Hs1) (Hn2 & Hi2 & Hs2).
  apply (StronglySorted_unique_strong (ranks_before ws)); try assumption.
  - intros a b _ _ Hab Hba. unfold ranks_before in *. lia.
  - apply NoDup_Permutation; try assumption.
    intros w. now rewrite Hi1, Hi2.
Qed.

Lemma idea_key_ranking text :
  idea_key text =
  match idea_words text with
  | [] => "uncategorized"
  | ws => Str.join " " (take 6 (ranking_of ws))
  end.
Proof.
  unfold idea_key, most_common, ranking_of.
  destruct (idea_words text); [reflexivity | ].
  now rewrite <- fmap_take.
Qed.

(** The surviving tokens are words of at least four letters [a]-[z] that
    are not stop words. *)
Lemma tokens_from_wf cur s :
  Forall (fun w => (4 <= String.length w)%nat) (tokens_from cur s).
Proof.
  revert cur. induction s as [ | c s IH]; intros cur; cbn [tokens_from].
  - destruct (Nat.leb_spec 4 (String.length cur)); repeat constructor. assumption.
  - destruct (Str.is_az c); [apply IH | ].
    apply Forall_app. split; [ | apply IH].
    destruct (Nat.leb_spec 4 (String.length cur)); repeat constructor. assumption.
Qed.

(** C3: [idea_key] computes the key the specification describes, and that
    key is unique: lower-case, tokens of at least four letters, stop words
    dropped, the six most frequent distinct tokens by descending frequency,
    ties by first occurrence, joined by single spaces; the sentinel when no
    token survives. *)
Theorem C3_idea_key_refines_spec :
  forall text,
    idea_key_spec text (idea_key text) /\
    (forall key, idea_key_spec text key -> key = idea_key text).
Proof.
  intros text. rewrite idea_key_ranking. unfold idea_key_spec.
  rewrite idea_words_spec_tokens.
  destruct (spec_tokens text) as [ | w ws]; [split; [reflexivity | auto] | ].
  split.
  - exists (ranking_of (w :: ws)). split; [apply ranking_of_is_ranking | reflexivity].
  - intros key (l & Hl & ->).
    now rewrite (ranking_unique _ _ _ Hl (ranking_of_is_ranking (w :: ws))).
Qed.

Example idea_key_ties :
  idea_key "beta alpha beta alpha gamma one two three four five seven eight nine"
  = "beta alpha gamma three four five".
Proof. vm_compute. reflexivity. Qed.

Example idea_key_frequency :
  idea_key "I'd pay for an app that tracks my expenses, tracks budget; Budget tracking TRACKS"
  = "tracks budget expenses tracking".
Proof. vm_compute. reflexivity. Qed.

Example idea_key_sentinel : idea_key "an app, a tool" = "uncategorized".
Proof. vm_compute. reflexivity. Qed.

Lemma C3_idea_key_refines_spec_witness :
  idea_key_spec "Budget tracking: tracks my budget" (idea_key "Budget tracking: tracks my budget") /\
  (forall key,
     idea_key_spec "Budget tracking: tracks my budget" key ->
     key = idea_key "Budget tracking: tracks my budget").
Proof. exact (C3_idea_key_refines_spec "Budget tracking: tracks my budget"). Defined.

(** ** Dictionaries and idea summaries *)

Lemma get_set {V : Type} k k' (v : V) (d : list (string * V)) :
  Dict.get k' (Dict.set k v d) = if String.eqb k k' then Some v else Dict.get k' d.
Proof.
  induction d as [ | [k0 v0] d IH]; simpl.
  - reflexivity.
  - destruct (String.eqb_spec k0 k) as [-> | Hne]; simpl.
    + now destruct (String.eqb k k').
    + rewrite IH. destruct (String.eqb_spec k0 k') as [-> | Hk']; [ | reflexivity].
      destruct (String.eqb_spec k k'); [congruence | reflexivity].
Qed.

Lemma Forall_set {V : Type} (P : string * V -> Prop) k (v : V) d :
  (forall k0, P (k0, v)) -> Forall P d -> Forall P (Dict.set k v d).
Proof.
  intros Hv. induction 1 as [ | [k0 v0] d H0 Hd IH]; simpl.
  - repeat constructor. apply Hv.
  - destruct (String.eqb k0 k); constructor; auto.
Qed.

Lemma total_set k (b : Bucket) (s : Summary) :
  total_mentions (Dict.set k b s)
  = (total_mentions s - mentions (default _new_summary_bucket (Dict.get k s))
     + mentions b)%Z.
Proof.
  unfold total_mentions. induction s as [ | [k0 b0] s IH]; simpl.
  - lia.
  - destruct (String.eqb k0 k); simpl; [lia | rewrite IH; lia].
Qed.

(** Each matched item adds one mention, to the bucket of its key only. *)
Lemma summary_add_total s key pay source label title url :
  total_mentions (summary_add s key pay source label title url)
  = (total_mentions s + 1)%Z.
Proof. unfold summary_add. rewrite total_set. simpl. lia. Qed.

Lemma summary_add_other s key pay source label title url key' :
  key' <> key ->
  Dict.get key' (summary_add s key pay source label title url) = Dict.get key' s.
Proof.
  intros Hne. unfold summary_add. rewrite get_set.
  destruct (String.eqb_spec key key'); [congruence | reflexivity].
Qed.

Lemma get_ok key s :
  summary_ok s -> bucket_ok (default _new_summary_bucket (Dict.get key s)).
Proof.
  unfold summary_ok. induction 1 as [ | [k0 b0] s H0 Hs IH]; simpl.
  - unfold bucket_ok. simpl. lia.
  - destruct (String.eqb k0 key); [exact H0 | exact IH].
Qed.

Lemma summary_add_ok s key pay source label title url :
  summary_ok s -> summary_ok (summary_add s key pay source label title url).
Proof.
  intros Hs. unfold summary_add. apply Forall_set; [ | exact Hs].
  intros k0. pose proof (get_ok key s Hs) as Hb.
  unfold bucket_ok in *. simpl. destruct pay; lia.
Qed.

Lemma merge_summaries_cons target key data incoming :
  merge_summaries target ((key, data) :: incoming)
  = merge_summaries
      (Dict.set key
         (merge_bucket (default _new_summary_bucket (Dict.get key target)) data) target)
      incoming.
Proof. reflexivity. Qed.

(** Merging preserves the total of mentions. *)
Lemma merge_summaries_total target incoming :
  total_mentions (merge_summaries target incoming)
  = (total_mentions target + total_mentions incoming)%Z.
Proof.
  revert target. induction incoming as [ | [key data] incoming IH]; intros target.
  - unfold merge_summaries, total_mentions. simpl. lia.
  - rewrite merge_summaries_cons, IH, total_set.
    change (total_mentions ((key, data) :: incoming))
      with (mentions data + total_mentions incoming)%Z.
    simpl. lia.
Qed.

Lemma merge_summaries_ok target incoming :
  summary_ok target -> summary_ok incoming ->
  summary_ok (merge_summaries target incoming).
Proof.
  intros Ht Hi. revert target Ht.
  induction Hi as [ | [key data] incoming Hd Hi IH]; intros target Ht.
  - exact Ht.
  - rewrite merge_summaries_cons. apply IH. apply Forall_set; [ | exact Ht].
    intros k0. pose proof (get_ok key target Ht) as Hb.
    unfold bucket_ok in *. simpl in *. lia.
Qed.

Lemma merge_all_ok target partials :
  summary_ok target -> Forall summary_ok partials ->
  summary_ok (fold_left merge_summaries partials target).
Proof.
  intros Ht Hp. revert target Ht.
  induction Hp as [ | p partials Hp Hps IH]; intros target Ht; simpl.
  - exact Ht.
  - apply IH. now apply merge_summaries_ok.
Qed.

(** *** Order-insensitivity of the aggregate fields *)

Lemma get_merge_summaries key target incoming :
  aggregate <$> Dict.get key (merge_summaries target incoming)
  = fold_left agg_step (contrib key incoming) (aggregate <$> Dict.get key target).
Proof.
  revert target. induction incoming as [ | [k data] incoming IH]; intros target.
  - reflexivity.
  - rewrite merge_summaries_cons, IH, get_set. unfold contrib. simpl.
    destruct (String.eqb_spec k key) as [-> | Hne]; simpl; [ | reflexivity].
    f_equal. unfold agg_step. now destruct (Dict.get key target).
Qed.

Lemma fold_agg_plus bs m p s u :
  fold_left agg_plus bs (m, p, s, u)
  = let '(m', p', s', u') := agg_total bs in
    ((m + m')%Z, (p + p')%Z, s ∪ s', u ∪ u').
Proof.
  revert m p s u. induction bs as [ | b bs IH]; intros m p s u; simpl.
  - now rewrite !Z.add_0_r, !(right_id_L ∅ (∪)).
  - rewrite IH. simpl. now rewrite !Z.add_assoc, !(assoc_L (∪)).
Qed.

Lemma fold_agg_step bs o :
  fold_left agg_step bs o
  = match bs with
    | [] => o
    | _ => Some (fold_left agg_plus bs (default (aggregate _new_summary_bucket) o))
    end.
Proof.
  revert o. induction bs as [ | b bs IH]; intros o; [reflexivity | ].
  simpl. rewrite IH. destruct bs; reflexivity.
Qed.

Lemma agg_total_comm xs ys : agg_total (xs ++ ys) = agg_total (ys ++ xs).
Proof.
  unfold agg_total. rewrite !map_app, !fold_right_app.
  assert (E : forall (l1 l2 : list Z),
             fold_right Z.add (fold_right Z.add 0%Z l2) l1
             = (fold_right Z.add 0%Z l1 + fold_right Z.add 0%Z l2)%Z).
  { intros l1 l2. induction l1 as [ | z l1 IH]; simpl; lia. }
  rewrite !E, !union_list_app_L.
  f_equal; [f_equal; [f_equal; lia | apply (comm_L (∪))] | apply (comm_L (∪))].
Qed.

Lemma fold_agg_step_two xs ys :
  fold_left agg_step ys (fold_left agg_step xs None)
  = match xs ++ ys with
    | [] => None
    | _ => Some (fold_left agg_plus (xs ++ ys) (aggregate _new_summary_bucket))
    end.
Proof.
  rewrite <- fold_left_app. now rewrite fold_agg_step.
Qed.

(** C10: merging two summaries into an empty target gives every idea key
    the same [mentions], [pay_mentions], [sources] and [subreddits] in
    either order. *)
Theorem C10_merge_order_insensitive :
  forall (A B : Summary) (key : string),
    aggregate <$> Dict.get key (merge_summaries (merge_summaries [] A) B)
    = aggregate <$> Dict.get key (merge_summaries (merge_summaries [] B) A).
Proof.
  intros A B key.
  rewrite !get_merge_summaries. simpl.
  rewrite !fold_agg_step_two.
  assert (E : fold_left agg_plus (contrib key A ++ contrib key B)
                (aggregate _new_summary_bucket)
              = fold_left agg_plus (contrib key B ++ contrib key A)
                (aggregate _new_summary_bucket)).
  { unfold aggregate, _new_summary_bucket. simpl.
    rewrite !fold_agg_plus, (agg_total_comm (contrib key A)). reflexivity. }
  rewrite E.
  destruct (contrib key A), (contrib key B); reflexivity.
Qed.

(** The sample is the one of the summary merged first. *)
Example merge_order_sample :
  let a := [("k", {| mentions := 1; pay_mentions := 0; sources := ∅; subreddits := ∅;
                     sample_title := "first"; sample_url := "u1" |})] in
  let b := [("k", {| mentions := 2; pay_mentions := 1; sources := ∅; subreddits := ∅;
                     sample_title := "second"; sample_url := "u2" |})] in
  sample_title <$> Dict.get "k" (merge_summaries (merge_summaries [] a) b) = Some "first" /\
  sample_title <$> Dict.get "k" (merge_summaries (merge_summaries [] b) a) = Some "second".
Proof. split; reflexivity. Qed.

Lemma C10_merge_order_insensitive_witness :
  let a := [("k", {| mentions := 1; pay_mentions := 0; sources := {["X"]};
                     subreddits := {["query:q"]};
                     sample_title := "first"; sample_url := "u1" |})] in
  let b := [("k", {| mentions := 2; pay_mentions := 1; sources := {["Bluesky"]};
                     subreddits := {["bsky:q"]};
                     sample_title := "second"; sample_url := "u2" |})] in
  aggregate <$> Dict.get "k" (merge_summaries (merge_summaries [] a) b)
  = aggregate <$> Dict.get "k" (merge_summaries (merge_summaries [] b) a).
Proof. intros a b. exact (C10_merge_order_insensitive a b "k"). Defined.

(** ** Trend engine *)

Lemma round_half_even_bound q :
  (Qabs (inject_Z (round_half_even q) - q) <= 1 # 2)%Q.
Proof.
  unfold round_half_even.
  pose proof (Qfloor_le q) as Hlo.
  pose proof (Qlt_floor q) as Hhi.
  rewrite inject_Z_plus in Hhi.
  change (inject_Z 1) with 1%Q in Hhi.
  apply Qabs_case; intros _;
    destruct (Qcompare_spec (q - inject_Z (Qfloor q)) (1 # 2)) as [He | Hl | Hg];
    try destruct (Z.even (Qfloor q));
    rewrite ?inject_Z_plus; change (inject_Z 1) with 1%Q; lra.
Qed.

Lemma py_round_bound x n :
  (Qabs (py_round x n - x) <= 1 # (2 * Z.to_pos (10 ^ Z.of_nat n)))%Q.
Proof.
  unfold py_round.
  set (scale := (10 ^ Z.of_nat n)%Z).
  assert (Hs : (0 < scale)%Z) by (apply Z.pow_pos_nonneg; lia).
  pose proof (round_half_even_bound (x * inject_Z scale)) as H.
  set (k := round_half_even (x * inject_Z scale)) in *.
  assert (Hq : (0 < inject_Z scale)%Q).
  { rewrite <- (Z2Pos.id scale Hs). unfold inject_Z, Qlt. simpl. lia. }
  assert (E1 : (k # Z.to_pos scale == inject_Z k / inject_Z scale)%Q).
  { rewrite (Qmake_Qdiv k (Z.to_pos scale)). now rewrite (Z2Pos.id scale Hs). }
  assert (E2 : (1 # (2 * Z.to_pos scale) == (1 # 2) / inject_Z scale)%Q).
  { rewrite (Qmake_Qdiv 1 (2 * Z.to_pos scale)).
    rewrite Pos2Z.inj_mul, (Z2Pos.id scale Hs).
    rewrite inject_Z_mult. field. lra. }
  rewrite E1, E2.
  assert (E3 : (inject_Z k / inject_Z scale - x
                == (inject_Z k - x * inject_Z scale) / inject_Z scale)%Q)
    by (field; lra).
  rewrite E3. unfold Qdiv. rewrite Qabs_Qmult.
  rewrite (Qabs_pos (/ inject_Z scale)).
  - apply Qmult_le_compat_r; [exact H | ].
    apply Qlt_le_weak, Qinv_lt_0_compat, Hq.
  - apply Qlt_le_weak, Qinv_lt_0_compat, Hq.
Qed.

Lemma enrich_summary_rows rows since_days previous_map :
  Forall2 (fun row e => e = enrich_row since_days previous_map row)
    rows (enrich_summary rows since_days previous_map).
Proof.
  unfold enrich_summary. induction rows; simpl; constructor; auto.
Qed.

(** C6: with a previous-scan map, momentum is "New" exactly for the idea
    keys the map lacks, with null deltas; otherwise the deltas are the
    differences to the previous counts and momentum follows the thresholds
    3 and -3 of the mention delta. *)
Theorem C6_momentum :
  forall rows since_days previous_map,
    Forall2
      (fun row e =>
         let mentions := default 0%Z (ir_mentions row) in
         let pay_mentions := default 0%Z (ir_pay_mentions row) in
         let prev := Dict.get (ir_idea_key row) previous_map in
         (en_momentum e = "New" <-> prev = None) /\
         (prev = None -> en_delta_mentions e = None /\ en_delta_pay e = None) /\
         (forall p, prev = Some p ->
            let delta := (mentions - prev_mentions p)%Z in
            en_delta_mentions e = Some delta /\
            en_delta_pay e = Some (pay_mentions - prev_pay_mentions p)%Z /\
            (en_momentum e = "Up" <-> (3 <= delta)%Z) /\
            (en_momentum e = "Down" <-> (delta <= -3)%Z) /\
            (en_momentum e = "Flat" <-> (-3 < delta < 3)%Z)))
      rows (enrich_summary rows since_days (Some previous_map)).
Proof.
  intros rows since_days previous_map.
  eapply Forall2_impl; [apply enrich_summary_rows | ].
  intros row e ->. unfold enrich_row. cbn zeta.
  destruct (Dict.get (ir_idea_key row) previous_map) as [p | ]; cbn [en_momentum en_delta_mentions en_delta_pay].
  - set (delta := (default 0%Z (ir_mentions row) - prev_mentions p)%Z).
    assert (Hm : (if (3 <=? delta)%Z then "Up"
                  else if (delta <=? -3)%Z then "Down" else "Flat") <> "New").
    { destruct (3 <=? delta)%Z; [discriminate | ].
      destruct (delta <=? -3)%Z; discriminate. }
    split; [split; [intros H; now apply Hm in H | discriminate] | ].
    split; [discriminate | ].
    intros p' [= <-].
    split; [reflexivity | ]. split; [reflexivity | ].
    fold delta. clear Hm.
    destruct (Z.leb_spec 3 delta); [ | destruct (Z.leb_spec delta (-3))];
      repeat split; intros; try discriminate; try lia; reflexivity.
  - split; [split; reflexivity | ].
    split; [split; reflexivity | ].
    intros p' [=].
Qed.

Lemma C6_momentum_witness :
  let rows := [ {| ir_idea_key := "expense tracking budget";
                   ir_mentions := Some 9%Z; ir_pay_mentions := Some 1%Z |};
                {| ir_idea_key := "meal planner";
                   ir_mentions := Some 2%Z; ir_pay_mentions := None |} ] in
  let previous_map :=
    [("expense tracking budget", {| prev_mentions := 5; prev_pay_mentions := 0 |})] in
  Forall2
    (fun row e =>
       let mentions := default 0%Z (ir_mentions row) in
       let pay_mentions := default 0%Z (ir_pay_mentions row) in
       let prev := Dict.get (ir_idea_key row) previous_map in
       (en_momentum e = "New" <-> prev = None) /\
       (prev = None -> en_delta_mentions e = None /\ en_delta_pay e = None) /\
       (forall p, prev = Some p ->
          let delta := (mentions - prev_mentions p)%Z in
          en_delta_mentions e = Some delta /\
          en_delta_pay e = Some (pay_mentions - prev_pay_mentions p)%Z /\
          (en_momentum e = "Up" <-> (3 <= delta)%Z) /\
          (en_momentum e = "Down" <-> (delta <= -3)%Z) /\
          (en_momentum e = "Flat" <-> (-3 < delta < 3)%Z)))
    rows (enrich_summary rows 30 (Some previous_map)).
Proof. intros rows previous_map. exact (C6_momentum rows 30 previous_map). Defined.

(** C7, as stated, fails: one pay mention in three mentions gives a
    [pay_ratio] of 33.3, which is not 100/3. *)
Lemma C7_pay_ratio_is_rounded :
  let e := enrich_row 30 None
             {| ir_idea_key := "expense tracking budget";
                ir_mentions := Some 3%Z; ir_pay_mentions := Some 1%Z |} in
  (en_pay_ratio e == 333 # 10)%Q /\
  ~ (en_pay_ratio e == 100 * inject_Z 1 / inject_Z 3)%Q.
Proof.
  split; [vm_compute; reflexivity | ].
  intros H. vm_compute in H. discriminate H.
Qed.

(** C7 (amended): the signal level follows the stated thresholds;
    [pay_ratio] is 0 when there are no mentions and otherwise the percentage
    of pay mentions rounded to one decimal; [mentions_per_day] is 0 when the
    lookback is 0 days and otherwise the mentions per day rounded to two
    decimals. *)
Theorem C7_signal_and_ratios :
  forall rows since_days previous_map,
    Forall2
      (fun row e =>
         let mentions := default 0%Z (ir_mentions row) in
         let pay_mentions := default 0%Z (ir_pay_mentions row) in
         ((2 <= pay_mentions \/ 12 <= mentions)%Z -> en_signal e = "High") /\
         (~ (2 <= pay_mentions \/ 12 <= mentions)%Z ->
          (1 <= pay_mentions \/ 5 <= mentions)%Z -> en_signal e = "Medium") /\
         (~ (2 <= pay_mentions \/ 12 <= mentions)%Z ->
          ~ (1 <= pay_mentions \/ 5 <= mentions)%Z -> en_signal e = "Low") /\
         (mentions = 0%Z -> en_pay_ratio e = 0%Q) /\
         (mentions <> 0%Z ->
          (exists k : Z, en_pay_ratio e = k # 10) /\
          (Qabs (en_pay_ratio e - 100 * inject_Z pay_mentions / inject_Z mentions)
           <= 1 # 20)%Q) /\
         (since_days = 0%Z -> en_mentions_per_day e = 0%Q) /\
         (since_days <> 0%Z ->
          (exists k : Z, en_mentions_per_day e = k # 100) /\
          (Qabs (en_mentions_per_day e - inject_Z mentions / inject_Z since_days)
           <= 1 # 200)%Q))
      rows (enrich_summary rows since_days previous_map).
Proof.
  intros rows since_days previous_map.
  eapply Forall2_impl; [apply enrich_summary_rows | ].
  intros row e ->. unfold enrich_row. cbn zeta.
  set (mentions := default 0%Z (ir_mentions row)).
  set (pay_mentions := default 0%Z (ir_pay_mentions row)).
  destruct (match match previous_map with
                  | Some m => Dict.get (ir_idea_key row) m
                  | None => None
                  end with
            | Some prev => _
            | None => _
            end) as [[dm dp] mo].
  cbn [en_signal en_pay_ratio en_mentions_per_day].
  repeat split.
  - intros H. destruct (Z.leb_spec 2 pay_mentions), (Z.leb_spec 12 mentions);
      try reflexivity; lia.
  - intros H1 H2.
    destruct (Z.leb_spec 2 pay_mentions), (Z.leb_spec 12 mentions); try lia.
    destruct (Z.leb_spec 1 pay_mentions), (Z.leb_spec 5 mentions);
      try reflexivity; lia.
  - intros H1 H2.
    destruct (Z.leb_spec 2 pay_mentions), (Z.leb_spec 12 mentions); try lia.
    destruct (Z.leb_spec 1 pay_mentions), (Z.leb_spec 5 mentions);
      try reflexivity; lia.
  - intros ->. reflexivity.
  - destruct (Z.eqb_spec mentions 0); [contradiction | ]. eexists. reflexivity.
  - destruct (Z.eqb_spec mentions 0) as [ | Hm]; [contradiction | ]. cbn [negb].
    pose proof (py_round_bound (inject_Z pay_mentions / inject_Z mentions * 100) 1) as Hb.
    assert (Hz : ~ (inject_Z mentions == 0)%Q).
    { unfold Qeq, inject_Z. simpl. lia. }
    assert (E : (100 * inject_Z pay_mentions / inject_Z mentions
                 == inject_Z pay_mentions / inject_Z mentions * 100)%Q)
      by (field; exact Hz).
    rewrite E. exact Hb.
  - intros ->. reflexivity.
  - destruct (Z.eqb_spec since_days 0); [contradiction | ]. eexists. reflexivity.
  - destruct (Z.eqb_spec since_days 0) as [ | Hm]; [contradiction | ]. cbn [negb].
    exact (py_round_bound (inject_Z mentions / inject_Z since_days) 2).
Qed.

Lemma C7_signal_and_ratios_witness :
  let rows := [ {| ir_idea_key := "expense tracking budget";
                   ir_mentions := Some 3%Z; ir_pay_mentions := Some 1%Z |} ] in
  Forall2
    (fun row e =>
       let mentions := default 0%Z (ir_mentions row) in
       let pay_mentions := default 0%Z (ir_pay_mentions row) in
       ((2 <= pay_mentions \/ 12 <= mentions)%Z -> en_signal e = "High") /\
       (~ (2 <= pay_mentions \/ 12 <= mentions)%Z ->
        (1 <= pay_mentions \/ 5 <= mentions)%Z -> en_signal e = "Medium") /\
       (~ (2 <= pay_mentions \/ 12 <= mentions)%Z ->
        ~ (1 <= pay_mentions \/ 5 <= mentions)%Z -> en_signal e = "Low") /\
       (mentions = 0%Z -> en_pay_ratio e = 0%Q) /\
       (mentions <> 0%Z ->
        (exists k : Z, en_pay_ratio e = k # 10) /\
        (Qabs (en_pay_ratio e - 100 * inject_Z pay_mentions / inject_Z mentions)
         <= 1 # 20)%Q) /\
       (30%Z = 0%Z -> en_mentions_per_day e = 0%Q) /\
       (30%Z <> 0%Z ->
        (exists k : Z, en_mentions_per_day e = k # 100) /\
        (Qabs (en_mentions_per_day e - inject_Z mentions / inject_Z 30)
         <= 1 # 200)%Q))
    rows (enrich_summary rows 30 None).
Proof. intros rows. exact (C7_signal_and_ratios rows 30 None). Defined.

(** The example of the specification: two mentions, one of them a pay
    mention, give a [pay_ratio] of 50.0; five and then nine mentions give a
    delta of 4 and momentum "Up". *)
Example enrich_example :
  let e := enrich_row 30
             (Some [("expense tracking budget",
                     {| prev_mentions := 5; prev_pay_mentions := 0 |})])
             {| ir_idea_key := "expense tracking budget";
                ir_mentions := Some 9%Z; ir_pay_mentions := Some 1%Z |} in
  en_delta_mentions e = Some 4%Z /\ en_momentum e = "Up" /\
  (en_pay_ratio (enrich_row 30 None
                   {| ir_idea_key := "expense tracking budget";
                      ir_mentions := Some 2%Z; ir_pay_mentions := Some 1%Z |})
   == 50)%Q.
Proof. repeat split. Qed.

(** ** The monad *)

Lemma with_reads_with_reads n m w : with_reads n (with_reads m w) = with_reads n w.
Proof. reflexivity. Qed.

Lemma with_reads_id w : with_reads (reads w) w = w.
Proof. now destruct w. Qed.

Lemma clock_only_ret {A : Type} (a : A) : clock_only (ret a).
Proof. intros w. exists (reads w). simpl. now rewrite with_reads_id. Qed.

Lemma clock_only_raise {A : Type} (e : exc) : clock_only (@raise A e).
Proof. intros w. exists (reads w). simpl. now rewrite with_reads_id. Qed.

Lemma clock_only_lift {A : Type} (r : exc + A) : clock_only (lift r).
Proof. intros w. exists (reads w). simpl. now rewrite with_reads_id. Qed.

Lemma clock_only_ask {A : Type} (f : World -> A) : clock_only (ask f).
Proof. intros w. exists (reads w). simpl. now rewrite with_reads_id. Qed.

Lemma clock_only_now : clock_only now.
Proof. intros w. now exists (S (reads w)). Qed.

Lemma clock_only_bind {A B : Type} (m : M A) (k : A -> M B) :
  clock_only m -> (forall a, clock_only (k a)) -> clock_only (bind m k).
Proof.
  intros Hm Hk w. unfold bind. destruct (Hm w) as [n Hn].
  destruct (m w) as [[e | a] w1]; simpl in Hn; subst w1.
  - now exists n.
  - destruct (Hk a (with_reads n w)) as [n' Hn']. exists n'.
    now rewrite Hn', with_reads_with_reads.
Qed.

Lemma clock_only_try {A : Type} (m : M A) (h : exc -> M A) :
  clock_only m -> (forall e, clock_only (h e)) -> clock_only (try_except m h).
Proof.
  intros Hm Hh w. unfold try_except. destruct (Hm w) as [n Hn].
  destruct (m w) as [[e | a] w1]; simpl in Hn; subst w1.
  - destruct (Hh e (with_reads n w)) as [n' Hn']. exists n'.
    now rewrite Hn', with_reads_with_reads.
  - now exists n.
Qed.

Lemma clock_only_for_each {A S : Type} (xs : list A) (body : A -> S -> M S) acc :
  (forall x a, clock_only (body x a)) -> clock_only (for_each xs body acc).
Proof.
  intros Hb. revert acc. induction xs as [ | x xs IH]; intros acc; simpl.
  - apply clock_only_ret.
  - apply clock_only_bind; [apply Hb | intros a; apply IH].
Qed.

Lemma clock_only_if {A : Type} (b : bool) (m1 m2 : M A) :
  clock_only m1 -> clock_only m2 -> clock_only (if b then m1 else m2).
Proof. now destruct b. Qed.

Lemma clock_only_db {A : Type} (m : M A) w :
  clock_only m -> db (snd (m w)) = db w /\ log (snd (m w)) = log w.
Proof. intros H. destruct (H w) as [n ->]. now split. Qed.

(** Loop invariants. *)
Lemma for_each_inv {A S : Type} (P : S -> Prop) (xs : list A) (body : A -> S -> M S) :
  (forall x a w a' w', P a -> body x a w = (inr a', w') -> P a') ->
  forall acc w r w', P acc -> for_each xs body acc w = (inr r, w') -> P r.
Proof.
  intros Hb. induction xs as [ | x xs IH]; intros acc w r w' Hacc H; simpl in H.
  - unfold ret in H. now injection H as <- _.
  - unfold bind in H. destruct (body x acc w) as [[e | a] w1] eqn:Hx; [discriminate | ].
    eapply IH; [ | exact H]. eapply Hb; eauto.
Qed.

Lemma fold_exc_inv {A S : Type} (P : S -> Prop) (xs : list A) (body : A -> S -> exc + S) :
  (forall x a a', P a -> body x a = inr a' -> P a') ->
  forall acc r, P acc -> fold_exc xs body acc = inr r -> P r.
Proof.
  intros Hb. induction xs as [ | x xs IH]; intros acc r Hacc H; simpl in H.
  - now injection H as <-.
  - destruct (body x acc) as [e | a] eqn:Hx; [discriminate | ].
    eapply IH; [ | exact H]. eapply Hb; eauto.
Qed.

Lemma fold_left_inv {A S : Type} (P : S -> Prop) (xs : list A) (f : S -> A -> S) :
  (forall x a, P a -> P (f a x)) -> forall acc, P acc -> P (fold_left f xs acc).
Proof.
  intros Hf. induction xs as [ | x xs IH]; intros acc Hacc; simpl; auto.
Qed.

(** A run whose result is known has a final world. *)
Lemma run_inr {A : Type} (m : M A) (w : World) (a : A) :
  fst (m w) = inr a -> exists w', m w = (inr a, w').
Proof. destruct (m w) as [r w']. simpl. intros ->. now exists w'. Qed.

Lemma run_inl_raises {A : Type} (m : M A) (w : World) :
  (match fst (m w) with inl _ => true | inr _ => false end) = true -> raises m w.
Proof.
  destruct (m w) as [[e | a] w'] eqn:E; simpl; [ | discriminate].
  intros _. now exists e, w'.
Qed.

(** A run of which a projection of the result is known by computation. *)
Lemma run_known {A B : Type} (m : M A) (w : World) (f : A -> B) (b : B) :
  match fst (m w) with inl _ => None | inr a => Some (f a) end = Some b ->
  exists a w', m w = (inr a, w') /\ f a = b.
Proof.
  destruct (m w) as [[e | a] w']; simpl; [discriminate | ].
  intros [= <-]. now exists a, w'.
Qed.

Lemma bind_inr {A B : Type} (m : M A) (k : A -> M B) w b w' :
  bind m k w = (inr b, w') ->
  exists a w1, m w = (inr a, w1) /\ k a w1 = (inr b, w').
Proof.
  unfold bind. destruct (m w) as [[e | a] w1]; [discriminate | ].
  intros H. now exists a, w1.
Qed.

Lemma ret_inr {A : Type} (a b : A) w w' : ret a w = (inr b, w') -> a = b /\ w = w'.
Proof. unfold ret. now intros [= -> ->]. Qed.

Lemma lift_inr {A : Type} (r : exc + A) b w w' :
  lift r w = (inr b, w') -> r = inr b /\ w = w'.
Proof. unfold lift. now intros [= -> ->]. Qed.

Lemma now_inr t w w' :
  now w = (inr t, w') -> t = clock w (reads w) /\ w' = with_reads (S (reads w)) w.
Proof. unfold now. now intros [= <- <-]. Qed.

Lemma ask_inr {A : Type} (f : World -> A) a w w' :
  ask f w = (inr a, w') -> a = f w /\ w = w'.
Proof. unfold ask. now intros [= <- <-]. Qed.

(** ** Source adapters *)

Lemma len_app_one {A : Type} (l : list A) (x : A) : len (l ++ [x]) = (len l + 1)%Z.
Proof. unfold len. rewrite length_app. simpl. lia. Qed.

Lemma result_ok_nil P : result_ok P [] [].
Proof. repeat split; constructor. Qed.

Lemma result_ok_add P rows summary row pay source label title url :
  result_ok P rows summary -> P row ->
  result_ok P (rows ++ [row])
    (summary_add summary (row_idea_key row) pay source label title url).
Proof.
  intros (Hok & Ht & Hp) Hr. split; [ | split].
  - now apply summary_add_ok.
  - rewrite summary_add_total, len_app_one. lia.
  - apply Forall_app. split; [assumption | now constructor].
Qed.

Lemma acc_ok_add P acc row pay : acc_ok P acc -> P row -> acc_ok P (acc_add acc row pay).
Proof. intros H Hr. unfold acc_ok, acc_add. simpl. now apply result_ok_add. Qed.

Lemma acc_ok_fetch P acc q n rate : acc_ok P acc -> acc_ok P (acc_fetch acc q n rate).
Proof. intros H. exact H. Qed.

(** *** Bluesky *)

Lemma scan_bsky_post_ok compiled raw_query post acc :
  acc_ok (fun r => row_source r = "Bluesky") acc ->
  acc_ok (fun r => row_source r = "Bluesky") (scan_bsky_post compiled raw_query post acc).
Proof.
  intros H. unfold scan_bsky_post.
  destruct (negb (Str.truthy _)); [exact H | ].
  destruct (negb (nonempty _)); [exact H | ].
  apply acc_ok_add; [exact H | reflexivity].
Qed.

Lemma scan_bsky_queries_ok queries limit base_url w rows summary meta stats w' :
  scan_bsky_queries queries limit base_url w = (inr (rows, summary, meta, stats), w') ->
  result_ok (fun r => row_source r = "Bluesky") rows summary.
Proof.
  unfold scan_bsky_queries. intros H.
  apply bind_inr in H as (compiled & w1 & _ & H).
  apply bind_inr in H as (acc & w2 & Hloop & H).
  apply ret_inr in H as [[= <- <- _ _] _].
  revert Hloop.
  apply (for_each_inv (acc_ok (fun r => row_source r = "Bluesky")));
    [ | apply result_ok_nil].
  clear. intros q acc w acc' w' Hacc H. unfold scan_bsky_query in H.
  apply bind_inr in H as ([posts rate] & w1 & _ & H).
  apply ret_inr in H as [<- _].
  apply (fold_left_inv (acc_ok (fun r => row_source r = "Bluesky")));
    [ | now apply acc_ok_fetch].
  intros post a. apply scan_bsky_post_ok.
Qed.

(** *** X *)

Lemma scan_tweet_ok compiled raw_query tweet acc w acc' w' :
  acc_ok (fun r => row_source r = "X") acc ->
  scan_tweet compiled raw_query tweet acc w = (inr acc', w') ->
  acc_ok (fun r => row_source r = "X") acc'.
Proof.
  intros Hacc H. unfold scan_tweet in H.
  destruct (negb (nonempty _)).
  - apply ret_inr in H as [<- _]. exact Hacc.
  - apply bind_inr in H as (created & w1 & _ & H).
    apply ret_inr in H as [<- _].
    apply acc_ok_add; [exact Hacc | reflexivity].
Qed.

Lemma scan_x_queries_ok queries limit since_days language rt w rows summary meta stats w' :
  scan_x_queries queries limit since_days language rt w
  = (inr (rows, summary, meta, stats), w') ->
  result_ok (fun r => row_source r = "X") rows summary.
Proof.
  unfold scan_x_queries. intros H.
  apply bind_inr in H as (token & w1 & _ & H).
  apply bind_inr in H as (compiled & w2 & _ & H).
  apply bind_inr in H as (acc & w3 & Hloop & H).
  apply ret_inr in H as [[= <- <- _ _] _].
  revert Hloop.
  apply (for_each_inv (acc_ok (fun r => row_source r = "X")));
    [ | apply result_ok_nil].
  clear. intros q acc w acc' w' Hacc H. unfold scan_x_query in H.
  apply bind_inr in H as ([tweets rate] & w1 & _ & H).
  revert H.
  apply (for_each_inv (acc_ok (fun r => row_source r = "X")));
    [ | now apply acc_ok_fetch].
  intros tweet a wa a' wa' Ha. now apply scan_tweet_ok.
Qed.

(** *** Mastodon *)

Lemma scan_status_ok compiled unescape parse cutoff raw_query status acc :
  acc_ok (mastodon_row_ok parse cutoff) acc ->
  acc_ok (mastodon_row_ok parse cutoff)
    (scan_status compiled unescape parse cutoff raw_query status acc).
Proof.
  intros H. unfold scan_status.
  destruct (mastodon_too_old parse cutoff (st_created_at status)) eqn:Hold; [exact H | ].
  destruct (negb (Str.truthy _)); [exact H | ].
  destruct (negb (nonempty _)); [exact H | ].
  apply acc_ok_add; [exact H | ].
  split; [reflexivity | ]. now exists (st_created_at status).
Qed.

Lemma scan_mastodon_query_ok compiled unescape parse cutoff limit instance token
    q acc w acc' w' :
  acc_ok (mastodon_row_ok parse cutoff) acc ->
  scan_mastodon_query compiled unescape parse cutoff limit instance token q acc w
  = (inr acc', w') ->
  acc_ok (mastodon_row_ok parse cutoff) acc'.
Proof.
  intros Hacc H. unfold scan_mastodon_query in H.
  apply bind_inr in H as ([statuses rate] & w1 & _ & H).
  apply ret_inr in H as [<- _].
  apply (fold_left_inv (acc_ok (mastodon_row_ok parse cutoff)));
    [ | now apply acc_ok_fetch].
  intros status a. apply scan_status_ok.
Qed.

Lemma scan_mastodon_queries_ok queries limit instance since_days token w
    rows summary meta stats w' :
  scan_mastodon_queries queries limit instance since_days token w
  = (inr (rows, summary, meta, stats), w') ->
  result_ok
    (mastodon_row_ok (fromisoformat w)
       (if (0 <? since_days)%Z then Some (clock w (reads w) - since_days * DAY)%Z
        else None))
    rows summary.
Proof.
  unfold scan_mastodon_queries. intros H.
  apply bind_inr in H as (compiled & w1 & Hc & H).
  apply lift_inr in Hc as [_ <-].
  apply bind_inr in H as (cutoff & w2 & Hcut & H).
  apply bind_inr in H as (unescape & w3 & Hu & H).
  apply ask_inr in Hu as [-> <-].
  apply bind_inr in H as (parse & w4 & Hp & H).
  apply ask_inr in Hp as [-> <-].
  apply bind_inr in H as (acc & w5 & Hloop & H).
  apply ret_inr in H as [[= <- <- _ _] _].
  assert (Hcw : cutoff = (if (0 <? since_days)%Z
                          then Some (clock w (reads w) - since_days * DAY)%Z
                          else None) /\ fromisoformat w2 = fromisoformat w).
  { destruct (0 <? since_days)%Z.
    - apply bind_inr in Hcut as (t & wt & Ht & Hr).
      apply now_inr in Ht as [-> ->]. apply ret_inr in Hr as [<- <-]. now split.
    - apply ret_inr in Hcut as [<- <-]. now split. }
  destruct Hcw as [-> Hf]. rewrite Hf in Hloop.
  revert Hloop.
  apply (for_each_inv (acc_ok (mastodon_row_ok (fromisoformat w) _)));
    [ | apply result_ok_nil].
  intros q a0 w0 a1 w6 Hacc H. eapply scan_mastodon_query_ok; eassumption.
Qed.

(** *** Reddit *)

Lemma scan_comment_ok compiled cutoff name rar submission comment acc :
  racc_ok (reddit_row_ok cutoff) acc ->
  racc_ok (reddit_row_ok cutoff)
    (scan_comment compiled cutoff name rar submission comment acc).
Proof.
  intros H. unfold scan_comment.
  destruct (Z.ltb_spec (c_created_utc comment) cutoff) as [ | Hge]; [exact H | ].
  destruct (rar && negb _); [exact H | ].
  destruct (nonempty _); [ | exact H].
  apply (result_ok_add (reddit_row_ok cutoff) _ _
           {| row_source := "Reddit"; row_idea_key := idea_key (c_body comment) |});
    [exact H | ].
  split; [reflexivity | ]. now exists (c_created_utc comment).
Qed.

Lemma scan_submission_ok reddit compiled cutoff ic cl rar name submission acc acc' :
  racc_ok (reddit_row_ok cutoff) acc ->
  scan_submission reddit compiled cutoff ic cl rar name submission acc = inr acc' ->
  racc_ok (reddit_row_ok cutoff) acc'.
Proof.
  intros Hacc H. unfold scan_submission in H.
  destruct (Z.ltb_spec (s_created_utc submission) cutoff) as [ | Hge].
  { now injection H as <-. }
  match type of H with
  | (if ic then match _ with inl _ => _ | inr _ => inr (fold_left _ _ ?a) end else _) = _ =>
      assert (Ha : racc_ok (reddit_row_ok cutoff) a)
  end.
  { destruct (nonempty _); [ | exact Hacc].
    match goal with
    | |- racc_ok _ {| ra_rows := _ ++ [?row] |} =>
        apply (result_ok_add (reddit_row_ok cutoff) _ _ row); [exact Hacc | ]
    end.
    split; [reflexivity | ]. now exists (s_created_utc submission). }
  destruct ic.
  - destruct (iter_comments reddit submission cl) as [e | comments]; [discriminate | ].
    injection H as <-.
    apply (fold_left_inv (racc_ok (reddit_row_ok cutoff))); [ | exact Ha].
    intros comment a. apply scan_comment_ok.
  - now injection H as <-.
Qed.

Lemma scan_subreddits_ok reddit subreddits pl since_days ic cl rar w rows summary stats w' :
  scan_subreddits reddit subreddits pl since_days ic cl rar w
  = (inr (rows, summary, stats), w') ->
  result_ok (reddit_row_ok (clock w (reads w) - since_days * DAY)%Z) rows summary.
Proof.
  unfold scan_subreddits. intros H.
  apply bind_inr in H as (compiled & w1 & Hc & H).
  apply lift_inr in Hc as [_ <-].
  apply bind_inr in H as (t & w2 & Ht & H).
  apply now_inr in Ht as [-> ->].
  apply bind_inr in H as (acc & w3 & Hloop & H).
  apply ret_inr in H as [[= <- <- _] _].
  apply lift_inr in Hloop as [Hloop _].
  revert Hloop.
  apply (fold_exc_inv (racc_ok (reddit_row_ok (clock w (reads w) - since_days * DAY)%Z)));
    [ | apply result_ok_nil].
  intros name acc0 acc1 Hacc Hs. unfold scan_subreddit in Hs.
  destruct (subreddit_new reddit name pl) as [e | listing]; [discriminate | ].
  revert Hs.
  apply (fold_exc_inv (racc_ok (reddit_row_ok (clock w (reads w) - since_days * DAY)%Z)));
    [ | exact Hacc].
  intros submission a a' Ha. now apply scan_submission_ok.
Qed.

(** ** Scan orchestrator *)

(** *** The adapters touch nothing but the clock *)

Lemma clock_only_load_reddit : clock_only load_reddit.
Proof.
  intros w. exists (reads w). unfold load_reddit.
  destruct (List.filter _ _); simpl; now rewrite with_reads_id.
Qed.

Lemma clock_only_load_x_token : clock_only load_x_token.
Proof.
  intros w. exists (reads w). unfold load_x_token.
  destruct (Str.truthy _); simpl; now rewrite with_reads_id.
Qed.

Ltac clock_only_tac :=
  repeat first
    [ apply clock_only_ret
    | apply clock_only_raise
    | apply clock_only_lift
    | apply clock_only_ask
    | apply clock_only_now
    | apply clock_only_load_reddit
    | apply clock_only_load_x_token
    | apply clock_only_bind; [ | intros ? ]
    | apply clock_only_for_each; intros ? ?
    | apply clock_only_if
    | match goal with
      | |- clock_only (match ?x with (_, _) => _ end) => destruct x
      | |- clock_only (match ?x with inl _ => _ | inr _ => _ end) => destruct x
      end ].

Lemma clock_only_scan_subreddits reddit subreddits pl sd ic cl rar :
  clock_only (scan_subreddits reddit subreddits pl sd ic cl rar).
Proof. unfold scan_subreddits. clock_only_tac. Qed.

Lemma clock_only_scan_x_queries queries limit sd language rt :
  clock_only (scan_x_queries queries limit sd language rt).
Proof.
  unfold scan_x_queries, scan_x_query, fetch_recent_tweets, scan_tweet.
  clock_only_tac.
Qed.

Lemma clock_only_scan_bsky_queries queries limit base_url :
  clock_only (scan_bsky_queries queries limit base_url).
Proof.
  unfold scan_bsky_queries, scan_bsky_query, fetch_search_posts.
  clock_only_tac.
Qed.

Lemma clock_only_scan_mastodon_queries queries limit instance sd token :
  clock_only (scan_mastodon_queries queries limit instance sd token).
Proof.
  unfold scan_mastodon_queries, scan_mastodon_query, fetch_statuses.
  clock_only_tac.
Qed.

Lemma clock_only_reddit_call config : clock_only (reddit_call config).
Proof.
  unfold reddit_call. apply clock_only_bind; [apply clock_only_load_reddit | ].
  intros reddit. apply clock_only_scan_subreddits.
Qed.

Lemma clock_only_mastodon_call config : clock_only (mastodon_call config).
Proof. intros w. unfold mastodon_call. apply clock_only_scan_mastodon_queries. Qed.

(** *** The failure boundary of each source *)

Lemma contains_prefix p s : String.prefix p s = true -> Str.contains p s = true.
Proof. intros H. destruct s; cbn [Str.contains]; now rewrite H. Qed.

Lemma prefix_app p e : String.prefix p (p +:+ e) = true.
Proof.
  induction p as [ | c p IH]; simpl; [now destruct e | ].
  destruct (ascii_dec c c); [exact IH | contradiction].
Qed.

Lemma not_raises_inr {A : Type} (m : M A) w a w' : m w = (inr a, w') -> ~ raises m w.
Proof. intros H (e & w1 & He). congruence. Qed.

Lemma raises_inl {A : Type} (m : M A) w e w' : m w = (inl e, w') -> raises m w.
Proof. intros H. now exists e, w'. Qed.

Lemma extends_nil st : extends st st [] [] [].
Proof. unfold extends. now rewrite !app_nil_r. Qed.

Lemma extends_warn st m : extends st (warn st m) [] [] [m].
Proof. unfold extends. simpl. now rewrite app_nil_r. Qed.

Lemma contribution_skip config src w :
  attempted config src = false -> contribution config src w [] [] [].
Proof.
  intros H. split; [apply result_ok_nil | ].
  repeat split; try reflexivity; congruence.
Qed.

Lemma contribution_raise config src w m :
  attempted config src = true ->
  Str.contains (source_name src) m = true ->
  adapter_raises config src w -> contribution config src w [] [] [m].
Proof.
  intros Ha Hm Hr. split; [apply result_ok_nil | ].
  split; [ | split].
  - intros _ _. repeat split. now exists m.
  - intros _ H. contradiction.
  - intros H. congruence.
Qed.

Lemma contribution_return config src w rows summary :
  attempted config src = true ->
  result_ok (fun r => row_source r = source_name src) rows summary ->
  ~ adapter_raises config src w -> contribution config src w rows summary [].
Proof.
  intros Ha Hok Hr. split; [exact Hok | ].
  split; [ | split].
  - intros _ H. contradiction.
  - reflexivity.
  - intros H. congruence.
Qed.

Lemma result_ok_weaken (P Q : Row -> Prop) rows summary :
  (forall r, P r -> Q r) -> result_ok P rows summary -> result_ok Q rows summary.
Proof.
  intros H (H1 & H2 & H3). repeat split; try assumption.
  eapply Forall_impl; eauto.
Qed.

Lemma x_warning_mentions e : Str.contains "X" (x_warning e) = true.
Proof.
  unfold x_warning.
  destruct (Str.contains "X_CREDITS_DEPLETED" e); [reflexivity | ].
  destruct (_ || _); [reflexivity | ].
  apply contains_prefix. now destruct e.
Qed.

Lemma bsky_warning_mentions e : Str.contains "Bluesky" (bsky_warning e) = true.
Proof.
  unfold bsky_warning.
  destruct (Str.contains "BSKY_RATE_LIMIT" e); [reflexivity | ].
  destruct (Str.contains "BSKY_AUTH_ERROR" e); [reflexivity | ].
  destruct (Str.contains "BSKY_FORBIDDEN" e); [reflexivity | ].
  apply contains_prefix. now destruct e.
Qed.

Lemma mastodon_warning_mentions e : Str.contains "Mastodon" (mastodon_warning e) = true.
Proof.
  unfold mastodon_warning.
  destruct (Str.contains "MASTODON_RATE_LIMIT" e); [reflexivity | ].
  destruct (Str.contains "MASTODON_AUTH_ERROR" e); [reflexivity | ].
  apply contains_prefix. now destruct e.
Qed.

Lemma reddit_warning_mentions e :
  Str.contains "Reddit" ("Reddit scan skipped: " +:+ e) = true.
Proof. apply contains_prefix. now destruct e. Qed.

Lemma reddit_block_spec : block_spec SReddit reddit_block.
Proof.
  intros config st w. unfold reddit_block.
  destruct (nonempty (Str.split_list (cfg_subreddits config))) eqn:Hatt.
  - destruct (clock_only_reddit_call config w) as [n Hn].
    unfold try_except.
    pose proof (scan_subreddits_ok) as Hok.
    unfold reddit_call in Hn. unfold bind in Hn |- *.
    destruct (load_reddit w) as [[e | reddit] w1] eqn:Hload.
    + simpl in Hn. subst w1.
      exists (warn st ("Reddit scan skipped: " +:+ e)), n, [], [],
        ["Reddit scan skipped: " +:+ e].
      split; [reflexivity | ]. split; [apply extends_warn | ].
      apply contribution_raise; [exact Hatt | apply reddit_warning_mentions | ].
      simpl. unfold reddit_call. eapply raises_inl. unfold bind. now rewrite Hload.
    + destruct (scan_subreddits reddit _ _ _ _ _ _ w1)
        as [[e | [[rows summary] stats]] w2] eqn:Hscan; simpl in Hn; subst w2.
      * exists (warn st ("Reddit scan skipped: " +:+ e)), n, [], [],
        ["Reddit scan skipped: " +:+ e].
        split; [reflexivity | ]. split; [apply extends_warn | ].
        apply contribution_raise; [exact Hatt | apply reddit_warning_mentions | ].
        simpl. unfold reddit_call. eapply raises_inl. unfold bind.
        rewrite Hload. exact Hscan.
      * eexists _, n, rows, summary, []. split; [reflexivity | ].
        split; [unfold extends; simpl; now rewrite app_nil_r | ].
        apply contribution_return; [exact Hatt | | ].
        -- eapply result_ok_weaken; [ | eapply Hok, Hscan]. now intros r [Hr _].
        -- simpl. unfold reddit_call. eapply not_raises_inr. unfold bind.
           rewrite Hload. exact Hscan.
  - exists st, (reads w), [], [], []. rewrite with_reads_id.
    split; [reflexivity | ]. split; [apply extends_nil | ].
    now apply contribution_skip.
Qed.

Lemma try_block_spec {R : Type} (call : M R) (k : R -> M ScanState)
    (rows_of : R -> list Row) (summary_of : R -> Summary) (warning : exc -> string)
    config src st w :
  clock_only call ->
  attempted config src = true ->
  (raises call w <-> adapter_raises config src w) ->
  (forall r w', call w = (inr r, w') ->
     result_ok (fun row => row_source row = source_name src) (rows_of r) (summary_of r)) ->
  (forall r w', exists st', k r w' = (inr st', w') /\
                            extends st st' (rows_of r) (summary_of r) []) ->
  (forall e, Str.contains (source_name src) (warning e) = true) ->
  exists st' n rows summary warns,
    try_except (bind call k) (fun e => ret (warn st (warning e))) w
    = (inr st', with_reads n w) /\
    extends st st' rows summary warns /\
    contribution config src w rows summary warns.
Proof.
  intros Hclock Hatt Hraise Hok Hk Hwarn.
  destruct (Hclock w) as [n Hn]. unfold try_except, bind.
  destruct (call w) as [[e | r] w1] eqn:Hcall; simpl in Hn; subst w1.
  - exists (warn st (warning e)), n, [], [], [warning e].
    split; [reflexivity | ]. split; [apply extends_warn | ].
    apply contribution_raise; [exact Hatt | apply Hwarn | ].
    apply Hraise. now exists e, (with_reads n w).
  - destruct (Hk r (with_reads n w)) as (st' & Hst & Hext).
    exists st', n, (rows_of r), (summary_of r), [].
    split; [now rewrite Hst | ]. split; [exact Hext | ].
    apply contribution_return; [exact Hatt | eapply Hok; reflexivity | ].
    intros H. apply Hraise in H. destruct H as (e & w2 & He). congruence.
Qed.

Lemma skip_block_spec config src st w :
  attempted config src = false ->
  exists st' n rows summary warns,
    ret st w = (inr st', with_reads n w) /\
    extends st st' rows summary warns /\
    contribution config src w rows summary warns.
Proof.
  intros H. exists st, (reads w), [], [], []. rewrite with_reads_id.
  split; [reflexivity | ]. split; [apply extends_nil | ].
  now apply contribution_skip.
Qed.

Lemma x_block_spec : block_spec SX x_block.
Proof.
  intros config st w. unfold x_block.
  destruct (negb (cfg_x_enabled config =? 0)%Z && Str.truthy (cfg_x_queries config))
    eqn:H1; [ | apply skip_block_spec; simpl; now rewrite H1].
  destruct (nonempty (Str.split_list (cfg_x_queries config))) eqn:H2;
    [ | apply skip_block_spec; simpl; now rewrite H1, H2].
  apply (try_block_spec _ _ (fun r => fst (fst (fst r))) (fun r => snd (fst (fst r)))).
  - apply clock_only_scan_x_queries.
  - simpl. now rewrite H1, H2.
  - reflexivity.
  - intros [[[rows summary] meta] stats] w' Hcall. simpl.
    eapply scan_x_queries_ok, Hcall.
  - intros [[[rows summary] meta] stats] w'. eexists. split; [reflexivity | ].
    unfold extends. simpl. now rewrite app_nil_r.
  - apply x_warning_mentions.
Qed.

Lemma bsky_block_spec : block_spec SBluesky bsky_block.
Proof.
  intros config st w. unfold bsky_block.
  destruct (negb (cfg_bsky_enabled config =? 0)%Z && Str.truthy (cfg_bsky_queries config))
    eqn:H1; [ | apply skip_block_spec; simpl; now rewrite H1].
  destruct (nonempty (Str.split_list (cfg_bsky_queries config))) eqn:H2;
    [ | apply skip_block_spec; simpl; now rewrite H1, H2].
  apply (try_block_spec _ _ (fun r => fst (fst (fst r))) (fun r => snd (fst (fst r)))).
  - apply clock_only_scan_bsky_queries.
  - simpl. now rewrite H1, H2.
  - reflexivity.
  - intros [[[rows summary] meta] stats] w' Hcall. simpl.
    eapply scan_bsky_queries_ok, Hcall.
  - intros [[[rows summary] meta] stats] w'. eexists. split; [reflexivity | ].
    unfold extends. simpl. now rewrite app_nil_r.
  - apply bsky_warning_mentions.
Qed.

Lemma mastodon_block_spec : block_spec SMastodon mastodon_block.
Proof.
  intros config st w. unfold mastodon_block.
  destruct (negb (cfg_mastodon_enabled config =? 0)%Z
            && Str.truthy (cfg_mastodon_queries config))
    eqn:H1; [ | apply skip_block_spec; simpl; now rewrite H1].
  unfold bind at 1, ask.
  destruct (nonempty (Str.split_list (cfg_mastodon_queries config))) eqn:H2;
    [ | apply skip_block_spec; simpl; now rewrite H1, H2].
  apply (try_block_spec _ _ (fun r => fst (fst (fst r))) (fun r => snd (fst (fst r)))).
  - apply clock_only_scan_mastodon_queries.
  - simpl. now rewrite H1, H2.
  - reflexivity.
  - intros [[[rows summary] meta] stats] w' Hcall. simpl.
    eapply result_ok_weaken; [ | eapply scan_mastodon_queries_ok, Hcall].
    now intros r [Hr _].
  - intros [[[rows summary] meta] stats] w'. eexists. split; [reflexivity | ].
    unfold extends. simpl. now rewrite app_nil_r.
  - apply mastodon_warning_mentions.
Qed.

(** *** The four sources in sequence *)

Lemma run_sources_spec config w :
  exists st n (rows : Source -> list Row) (summary : Source -> Summary)
         (warns : Source -> list string),
    run_sources config w = (inr st, with_reads n w) /\
    ss_rows st = rows SReddit ++ rows SX ++ rows SBluesky ++ rows SMastodon /\
    ss_summary st =
      fold_left merge_summaries
        [summary SReddit; summary SX; summary SBluesky; summary SMastodon] [] /\
    ss_warnings st = warns SReddit ++ warns SX ++ warns SBluesky ++ warns SMastodon /\
    forall src,
      contribution config src (world_at config src w) (rows src) (summary src) (warns src).
Proof.
  unfold run_sources.
  destruct (reddit_block_spec config ss_init w)
    as (st1 & n1 & r1 & s1 & m1 & E1 & (Hr1 & Hs1 & Hm1) & C1).
  destruct (x_block_spec config st1 (with_reads n1 w))
    as (st2 & n2 & r2 & s2 & m2 & E2 & (Hr2 & Hs2 & Hm2) & C2).
  destruct (bsky_block_spec config st2 (with_reads n2 w))
    as (st3 & n3 & r3 & s3 & m3 & E3 & (Hr3 & Hs3 & Hm3) & C3).
  destruct (mastodon_block_spec config st3 (with_reads n3 w))
    as (st4 & n4 & r4 & s4 & m4 & E4 & (Hr4 & Hs4 & Hm4) & C4).
  rewrite !with_reads_with_reads in *.
  exists st4, n4,
    (fun src => match src with SReddit => r1 | SX => r2 | SBluesky => r3 | SMastodon => r4 end),
    (fun src => match src with SReddit => s1 | SX => s2 | SBluesky => s3 | SMastodon => s4 end),
    (fun src => match src with SReddit => m1 | SX => m2 | SBluesky => m3 | SMastodon => m4 end).
  assert (W2 : world_at config SX w = with_reads n1 w).
  { simpl. now rewrite E1. }
  assert (W3 : world_at config SBluesky w = with_reads n2 w).
  { simpl. unfold bind. now rewrite E1, E2. }
  assert (W4 : world_at config SMastodon w = with_reads n3 w).
  { simpl. unfold bind. now rewrite E1, E2, E3. }
  split; [unfold bind; now rewrite E1, E2, E3, E4 | ].
  split; [rewrite Hr4, Hr3, Hr2, Hr1; simpl; now rewrite <- !app_assoc | ].
  split; [simpl; now rewrite Hs4, Hs3, Hs2, Hs1 | ].
  split; [rewrite Hm4, Hm3, Hm2, Hm1; simpl; now rewrite <- !app_assoc | ].
  intros [ | | | ]; [exact C1 | now rewrite W2 | now rewrite W3 | now rewrite W4].
Qed.

Lemma len_app {A : Type} (l k : list A) : len (l ++ k) = (len l + len k)%Z.
Proof. unfold len. rewrite length_app. lia. Qed.

(** The state after the sources: the summary counts every row once and no
    bucket has more pay mentions than mentions. *)
Lemma run_sources_counts config w st w' :
  run_sources config w = (inr st, w') ->
  summary_ok (ss_summary st) /\ total_mentions (ss_summary st) = len (ss_rows st).
Proof.
  intros H.
  destruct (run_sources_spec config w) as (st0 & n & rows & summary & warns & E & Hr & Hs & _ & C).
  rewrite E in H. injection H as <- _. rewrite Hr, Hs.
  destruct (C SReddit) as ((O1 & T1 & _) & _).
  destruct (C SX) as ((O2 & T2 & _) & _).
  destruct (C SBluesky) as ((O3 & T3 & _) & _).
  destruct (C SMastodon) as ((O4 & T4 & _) & _).
  split.
  - apply merge_all_ok; [constructor | repeat constructor; assumption].
  - simpl. rewrite !merge_summaries_total, !len_app, T1, T2, T3, T4.
    unfold total_mentions. simpl. lia.
Qed.

Lemma run_sources_never_raises config w :
  exists st n, run_sources config w = (inr st, with_reads n w).
Proof.
  destruct (run_sources_spec config w) as (st & n & _ & _ & _ & E & _). now exists st, n.
Qed.

(** *** Persisting the scan *)

Lemma persist_scan_spec org_id st w :
  exists w',
    persist_scan org_id st w = (inr (next_scan_id (db w)), w') /\
    scan_configs (db w') = scan_configs (db w) /\
    schedules (db w') = schedules (db w) /\
    scans (db w') =
      scans (db w) ++ [scan_of org_id st (next_scan_id (db w)) (clock w (reads w))] /\
    log w' = log w.
Proof. eexists. repeat split. Qed.


Lemma finish_scan_spec org_id config w :
  exists st n w',
    run_sources config w = (inr st, with_reads n w) /\
    (let* st := run_sources config in
     let* id := persist_scan org_id st in
     ret (id, len (ss_rows st), len (ss_summary st), ss_warnings st)) w
    = (inr (next_scan_id (db w), len (ss_rows st), len (ss_summary st), ss_warnings st), w') /\
    scan_configs (db w') = scan_configs (db w) /\
    schedules (db w') = schedules (db w) /\
    scans (db w') = scans (db w) ++ [scan_of org_id st (next_scan_id (db w)) (clock w n)] /\
    log w' = log w.
Proof.
  destruct (run_sources_never_raises config w) as (st & n & E).
  exists st, n. eexists. split; [exact E | ].
  unfold bind. rewrite E. repeat split.
Qed.

Lemma find_app_last {A : Type} (f : A -> bool) (l : list A) (x : A) :
  f x = true -> exists y, List.find f (l ++ [x]) = Some y.
Proof.
  intros Hx. induction l as [ | a l IH]; simpl.
  - rewrite Hx. now exists x.
  - destruct (f a); [now exists a | exact IH].
Qed.

Lemma ensure_org_config_missing org_id w :
  find_config org_id (db w) = None ->
  match ensure_org_config org_id w with
  | (inl _, w') =>
      scans (db w') = scans (db w) /\ schedules (db w') = schedules (db w) /\
      log w' = log w
  | (inr (Some _), w') => scans (db w') = scans (db w) /\ log w' = log w
  | (inr None, _) => False
  end.
Proof.
  intros Hc.
  unfold ensure_org_config, utc_now, now, insert_config, insert_schedule,
    modify_db, raise, ret, bind, ask.
  cbn [db with_reads with_db cfg_org_id sch_org_id default_config].
  rewrite Hc.
  cbn [db with_reads with_db cfg_org_id sch_org_id default_config].
  rewrite Hc.
  cbn [db with_reads with_db cfg_org_id sch_org_id default_config].
  unfold find_schedule. cbn [schedules].
  destruct (List.find _ (schedules (db w))) as [sch | ].
  - repeat split; reflexivity.
  - cbn [db with_reads with_db cfg_org_id sch_org_id default_config].
    unfold find_config. cbn [scan_configs].
    destruct (find_app_last (fun c => (cfg_org_id c =? org_id)%Z) (scan_configs (db w))
                (default_config org_id (clock w (reads w)))) as [c' Hc'].
    { simpl. apply Z.eqb_refl. }
    rewrite Hc'. split; reflexivity.
Qed.

(** Every run of the orchestrator either raises, leaving scans and
    schedules as they were, or appends exactly one scan, whose summary
    counts every one of its rows once. *)
Lemma run_scan_outcome org_id w :
  match run_scan_for_org org_id w with
  | (inr (id, n, k, warns), w') =>
      exists scan,
        scans (db w') = scans (db w) ++ [scan] /\
        scan_id scan = id /\
        n = len (scan_results scan) /\
        k = len (scan_idea_summaries scan) /\
        warns = scan_warnings scan /\
        summary_ok (scan_idea_summaries scan) /\
        total_mentions (scan_idea_summaries scan) = len (scan_results scan) /\
        log w' = log w ++ [ScanStarted org_id]
  | (inl _, w') =>
      scans (db w') = scans (db w) /\ schedules (db w') = schedules (db w) /\
      log w' = log w ++ [ScanStarted org_id]
  end.
Proof.
  assert (Hfin : forall config w0,
             scans (db w0) = scans (db w) ->
             log w0 = log w ++ [ScanStarted org_id] ->
             match (let* st := run_sources config in
                    let* id := persist_scan org_id st in
                    ret (id, len (ss_rows st), len (ss_summary st), ss_warnings st)) w0 with
             | (inr (id, n, k, warns), w') =>
                 exists scan,
                        scans (db w') = scans (db w) ++ [scan] /\
                        scan_id scan = id /\
                        n = len (scan_results scan) /\
                        k = len (scan_idea_summaries scan) /\
                        warns = scan_warnings scan /\
                        summary_ok (scan_idea_summaries scan) /\
                        total_mentions (scan_idea_summaries scan) = len (scan_results scan) /\
                        log w' = log w ++ [ScanStarted org_id]
             | (inl _, w') =>
                 scans (db w') = scans (db w) /\ schedules (db w') = schedules (db w) /\
                 log w' = log w ++ [ScanStarted org_id]
             end).
  { intros config w0 Hw0 Hl0.
    destruct (finish_scan_spec org_id config w0) as (st & n & w' & E & -> & _ & _ & Hs & Hl).
    destruct (run_sources_counts _ _ _ _ E) as [Hok Htot].
    eexists. split; [rewrite Hs, Hw0; reflexivity | ].
    repeat split; try assumption. now rewrite Hl. }
  unfold run_scan_for_org.
  unfold bind at 1, emit. unfold bind at 1, ask. cbn [db with_log].
  fold (scan_start org_id w).
  destruct (find_config org_id (db w)) as [config | ] eqn:Hc.
  - unfold bind at 1, ret at 1. apply Hfin; reflexivity.
  - unfold bind at 1.
    pose proof (ensure_org_config_missing org_id (scan_start org_id w) Hc) as He.
    destruct (ensure_org_config org_id (scan_start org_id w)) as [[e | [c | ]] w1].
    + exact He.
    + apply Hfin; apply He.
    + contradiction.
Qed.





(** In the example world Reddit lacks credentials: the scan is persisted
    with the warning and without rows. *)
Example run_scan_example :
  fst (run_scan_for_org 1 example_world)
  = inr (1%Z, 0%Z, 0%Z,
         ["Reddit scan skipped: Missing environment variables: " +:+
          "REDDIT_CLIENT_ID, REDDIT_CLIENT_SECRET, REDDIT_USER_AGENT"]) /\
  List.map scan_warnings (scans (db (snd (run_scan_for_org 1 example_world))))
  = [["Reddit scan skipped: Missing environment variables: " +:+
      "REDDIT_CLIENT_ID, REDDIT_CLIENT_SECRET, REDDIT_USER_AGENT"]] /\
  source_fails example_config SReddit (scan_start 1 example_world).
Proof.
  split; [vm_compute; reflexivity | ].
  split; [vm_compute; reflexivity | ].
  split; [vm_compute; reflexivity | ].
  apply (run_inl_raises (reddit_call example_config) (scan_start 1 example_world)).
  vm_compute. reflexivity.
Qed.

(** Organization 3 of the example world: Reddit fails, X and Bluesky
    each deliver one matching item, and the one Mastodon status is older
    than its seven days. *)
Example run_scan_sources_example :
  fst (run_scan_for_org 3 example_world)
  = inr (1%Z, 2%Z, 2%Z,
         ["Reddit scan skipped: Missing environment variables: " +:+
          "REDDIT_CLIENT_ID, REDDIT_CLIENT_SECRET, REDDIT_USER_AGENT"]) /\
  List.map
    (fun s => (List.map (fun r => (row_source r, row_idea_key r, row_willing_to_pay r))
                 (scan_results s),
               List.map (fun kv => (fst kv, mentions (snd kv), pay_mentions (snd kv)))
                 (scan_idea_summaries s)))
    (scans (db (snd (run_scan_for_org 3 example_world))))
  = [([("X", "budget planner", "yes"); ("Bluesky", "bwilling budget planner", "yes")],
      [("budget planner", 1%Z, 1%Z); ("bwilling budget planner", 1%Z, 1%Z)])].
Proof. split; vm_compute; reflexivity. Qed.

(** C4: in every scan that the orchestrator persists, the mentions of the
    idea summaries add up to the number of matched items; a run that raises
    persists no scan.  Each matched item adds one mention to the bucket of
    its key and leaves the other buckets alone, and merging adds up the
    totals. *)
Theorem C4_mentions_sum_to_items :
  (forall org_id w,
     match run_scan_for_org org_id w with
     | (inr (id, n, _, _), w') =>
         exists scan,
           scans (db w') = scans (db w) ++ [scan] /\
           scan_id scan = id /\ n = len (scan_results scan) /\
           total_mentions (scan_idea_summaries scan) = len (scan_results scan)
     | (inl _, w') => scans (db w') = scans (db w)
     end) /\
  (forall summary key pay source label title url,
     total_mentions (summary_add summary key pay source label title url)
     = (total_mentions summary + 1)%Z /\
     forall key',
       Dict.get key' (summary_add summary key pay source label title url)
       = if String.eqb key key'
         then Dict.get key (summary_add summary key pay source label title url)
         else Dict.get key' summary) /\
  (forall target incoming,
     total_mentions (merge_summaries target incoming)
     = (total_mentions target + total_mentions incoming)%Z).
Proof.
  split; [ | split].
  - intros org_id w. pose proof (run_scan_outcome org_id w) as H.
    destruct (run_scan_for_org org_id w) as [[e | [[[id n] k] warns]] w'].
    + apply H.
    + destruct H as (scan & H1 & H2 & H3 & _ & _ & _ & H7 & _). now exists scan.
  - intros summary key pay source label title url.
    split; [apply summary_add_total | ].
    intros key'. destruct (String.eqb_spec key key') as [<- | Hne]; [reflexivity | ].
    apply summary_add_other. congruence.
  - apply merge_summaries_total.
Qed.

Lemma C4_mentions_sum_to_items_witness :
  match run_scan_for_org 1 example_world with
  | (inr (id, n, _, _), w') =>
      exists scan,
        scans (db w') = scans (db example_world) ++ [scan] /\
        scan_id scan = id /\ n = len (scan_results scan) /\
        total_mentions (scan_idea_summaries scan) = len (scan_results scan)
  | (inl _, w') => scans (db w') = scans (db example_world)
  end.
Proof. exact (proj1 C4_mentions_sum_to_items 1%Z example_world). Defined.

(** C5: no bucket that an adapter accumulates, and no bucket of a target
    into which any number of such summaries are merged, has more pay
    mentions than mentions. *)
Theorem C5_pay_mentions_le_mentions :
  (forall reddit subreddits pl sd ic cl rar w rows summary stats w',
     scan_subreddits reddit subreddits pl sd ic cl rar w = (inr (rows, summary, stats), w') ->
     summary_ok summary) /\
  (forall queries limit sd language rt w rows summary meta stats w',
     scan_x_queries queries limit sd language rt w = (inr (rows, summary, meta, stats), w') ->
     summary_ok summary) /\
  (forall queries limit base_url w rows summary meta stats w',
     scan_bsky_queries queries limit base_url w = (inr (rows, summary, meta, stats), w') ->
     summary_ok summary) /\
  (forall queries limit instance sd token w rows summary meta stats w',
     scan_mastodon_queries queries limit instance sd token w
     = (inr (rows, summary, meta, stats), w') ->
     summary_ok summary) /\
  (forall target partials,
     summary_ok target -> Forall summary_ok partials ->
     summary_ok (fold_left merge_summaries partials target)).
Proof.
  repeat split.
  - intros. eapply scan_subreddits_ok; eassumption.
  - intros. eapply scan_x_queries_ok; eassumption.
  - intros. eapply scan_bsky_queries_ok; eassumption.
  - intros. eapply scan_mastodon_queries_ok; eassumption.
  - apply merge_all_ok.
Qed.

Lemma C5_pay_mentions_le_mentions_witness :
  (exists rows summary meta stats w',
     scan_bsky_queries ["budget"] 10 DEFAULT_BSKY_BASE_URL example_world
     = (inr (rows, summary, meta, stats), w') /\
     List.map fst summary = ["bwilling budget planner"] /\ summary_ok summary) /\
  let paid := {| mentions := 2; pay_mentions := 1; sources := {["X"]};
                 subreddits := {["query:budget"]};
                 sample_title := "a"; sample_url := "u" |} in
  let free := {| mentions := 1; pay_mentions := 0; sources := {["Bluesky"]};
                 subreddits := {["bsky:budget"]};
                 sample_title := "b"; sample_url := "v" |} in
  summary_ok [] /\
  Forall summary_ok [[("budget planner", paid)]; [("budget planner", free)]] /\
  summary_ok
    (fold_left merge_summaries [[("budget planner", paid)]; [("budget planner", free)]] []).
Proof.
  split.
  - destruct (run_known
                (scan_bsky_queries ["budget"] 10 DEFAULT_BSKY_BASE_URL) example_world
                (fun r => List.map fst (snd (fst (fst r)))) ["bwilling budget planner"])
      as ([[[rows summary] meta] stats] & w' & E & Hk); [vm_compute; reflexivity | ].
    exists rows, summary, meta, stats, w'. split; [exact E | ].
    split; [exact Hk | ].
    exact (proj1 (proj2 (proj2 C5_pay_mentions_le_mentions)) _ _ _ _ _ _ _ _ _ E).
  - intros paid free.
    assert (H1 : summary_ok []) by constructor.
    assert (H2 : Forall summary_ok [[("budget planner", paid)]; [("budget planner", free)]]).
    { repeat constructor; unfold bucket_ok; simpl; lia. }
    split; [exact H1 | ]. split; [exact H2 | ].
    apply (proj2 (proj2 (proj2 (proj2 C5_pay_mentions_le_mentions)))); assumption.
Defined.

(** ** The cutoff window *)


(** The Bluesky adapter has no cutoff at all. *)
Example bsky_returns_old_item :
  exists rows summary meta stats w',
    scan_bsky_queries ["budget"] 10 DEFAULT_BSKY_BASE_URL example_world
    = (inr (rows, summary, meta, stats), w') /\
    List.map row_created_utc rows = [CreatedText "2001-01-01T00:00:00Z"].
Proof.
  destruct (run_known (scan_bsky_queries ["budget"] 10 DEFAULT_BSKY_BASE_URL) example_world
              (fun r => List.map row_created_utc (fst (fst (fst r))))
              [CreatedText "2001-01-01T00:00:00Z"])
    as ([[[rows summary] meta] stats] & w' & E & Hc); [vm_compute; reflexivity | ].
  now exists rows, summary, meta, stats, w'.
Qed.




(** ** Scheduler *)







(** The examples of the specification: with an interval of 24 hours, a last
    run 30 hours ago is due and one 10 hours ago is not. *)
Example due_examples :
  invoked (example_schedule 1 24 (Some (example_clock 0 - 30 * HOUR)%Z)) example_world /\
  ~ invoked (example_schedule 1 24 (Some (example_clock 0 - 10 * HOUR)%Z)) example_world.
Proof.
  split; unfold invoked; [vm_compute; reflexivity | vm_compute; discriminate].
Qed.

(** A tick in the example world: the run for organization 2 fails and
    leaves its schedule alone, and the run for organization 1 still takes
    place and records the time of its check. *)
Example tick_example :
  fst (run_due_scans example_world) = inr tt /\
  log (snd (run_due_scans example_world)) = [ScanStarted 2; ScanStarted 1] /\
  List.map (fun s => (sch_org_id s, sch_last_run_utc s))
    (schedules (db (snd (run_due_scans example_world))))
  = [(2%Z, None); (1%Z, Some (example_clock 2))] /\
  List.map scan_org_id (scans (db (snd (run_due_scans example_world)))) = [1%Z].
Proof. repeat split; vm_compute; reflexivity. Qed.

(** * Further properties of the code *)

(** ** Strings *)

Lemma prefix_empty s : String.prefix "" s = true.
Proof. now destruct s. Qed.

Lemma contains_char c s : Str.contains (String c "") s = has_char c s.
Proof.
  induction s as [ | d s IH]; [reflexivity | ].
  cbn [Str.contains has_char String.prefix]. rewrite IH, prefix_empty.
  destruct (ascii_dec c d) as [-> | Hne].
  - now rewrite Ascii.eqb_refl.
  - apply Ascii.eqb_neq in Hne. now rewrite Hne.
Qed.

Lemma has_char_app c a b : has_char c (a +:+ b) = has_char c a || has_char c b.
Proof.
  induction a as [ | d a IH]; [reflexivity | ].
  change (has_char c (String d (a +:+ b)) = has_char c (String d a) || has_char c b).
  cbn [has_char]. rewrite IH. now rewrite orb_assoc.
Qed.

Lemma length_app_string a b : String.length (a +:+ b) = String.length a + String.length b.
Proof.
  induction a as [ | d a IH]; [reflexivity | ].
  change (S (String.length (a +:+ b)) = S (String.length a) + String.length b).
  now rewrite IH.
Qed.
